(** * The task server: request handlers of [src/server.py]

    The Tornado handlers of the task server are embedded as programs in a
    small state-and-exception monad.  The collaborators the handlers
    import (the Redis cache client, the task CRUD layer, the queue
    publisher, the task spawner) and the library functions they call are
    an interface the handlers are parametric in.  Every collaborator call
    is recorded, with its outcome, in a call trace, so that statements
    such as "the Task Record Store is not read" are statements about the
    trace of a handler run.  An exception that leaves a handler method is
    answered the way Tornado answers it, by its error page. *)

From Stdlib Require Import ZArith.
From Stdlib Require Import Ascii String DecimalString.
From stdpp Require Import base option strings list gmap pretty.

Set Warnings "-register-all,-clear-no-such-hyp".
Open Scope string_scope.

(** ** Python values and call outcomes *)

(** Outcome of a Python call: it returns a value or raises an exception.
    The handlers only ever use [str(err)] of a caught exception, so an
    exception is represented by that string. *)
Inductive pyresult (A : Type) : Type :=
| Ok (a : A)
| Raise (err : string).
Arguments Ok {A} a.
Arguments Raise {A} err.

(** A raised exception as Tornado sees it when it leaves a handler
    method: [str(e)] and, when it is a [tornado.web.HTTPError], its
    status code. *)
Record exn : Type := mkExn {
  http_status : option Z;
  message : string
}.

(** Outcome of a step of a handler: a value, or an exception in
    flight. *)
Inductive outcome (A : Type) : Type :=
| Done (a : A)
| Thrown (e : exn).
Arguments Done {A} a.
Arguments Thrown {A} e.

(** An exception raised by a collaborator or a library function is a
    plain [Exception]. *)
Definition of_result {A : Type} (r : pyresult A) : outcome A :=
  match r with
  | Ok a => Done a
  | Raise err => Thrown (mkExn None err)
  end.

(** [http.client.responses], for the two codes that occur. *)
Definition reason (code : Z) : string :=
  if Z.eqb code 400 then "Bad Request"
  else if Z.eqb code 500 then "Internal Server Error"
  else "Unknown".

(** [tornado.web.HTTPError(status_code, log_message)] and its [str]. *)
Definition HTTPError (status_code : Z) (log_message : string) : exn :=
  mkExn (Some status_code)
    ("HTTP " ++ pretty status_code ++ ": " ++ reason status_code
     ++ " (" ++ log_message ++ ")").

(** The dynamically typed values exchanged with the collaborators. *)
Inductive pyval : Type :=
| PNone
| PBool (b : bool)
| PInt (z : Z)
| PStr (s : string)
| PList (l : list pyval)
| PDict (d : list (string * pyval)).

(** Python truthiness, as used by [if redis_cache:], [if task_id] and
    [if limit]. *)
Definition truthy (v : pyval) : bool :=
  match v with
  | PNone => false
  | PBool b => b
  | PInt z => negb (Z.eqb z 0)
  | PStr s => negb (String.eqb s "")
  | PList l => match l with [] => false | _ => true end
  | PDict d => match d with [] => false | _ => true end
  end.

Definition type_name (v : pyval) : string :=
  match v with
  | PNone => "NoneType"
  | PBool _ => "bool"
  | PInt _ => "int"
  | PStr _ => "str"
  | PList _ => "list"
  | PDict _ => "dict"
  end.

Fixpoint assoc (k : string) (d : list (string * pyval)) : option pyval :=
  match d with
  | [] => None
  | (k', v) :: d' => if String.eqb k k' then Some v else assoc k d'
  end.

(** [obj.get(key, default)]: defined on dicts; any other object has no
    attribute [get] and the access raises. *)
Definition py_get (obj : pyval) (key : string) (default : pyval) : pyresult pyval :=
  match obj with
  | PDict d => Ok (from_option id default (assoc key d))
  | _ => Raise ("'" ++ type_name obj ++ "' object has no attribute 'get'")
  end.

(** [v == s] for a string constant [s]. *)
Definition py_eq_str (v : pyval) (s : string) : bool :=
  match v with
  | PStr s' => String.eqb s' s
  | _ => false
  end.

(** A request argument: a string, or [None] when absent and defaulted
    to [None]. *)
Definition of_arg (a : option string) : pyval := from_option PStr PNone a.

(** [str(a)] inside an f-string, for a string or [None]. *)
Definition str_arg (a : option string) : string := default "None" a.

(** ** Task items *)

(** Modelled from the spec: the constants of [src.server.structures.task]
    are not part of the sources at hand; the three statuses are those of
    the data model, their string values those quoted by the comments of
    [ResultsHandler.get]. *)
Module TaskStatus.
Inductive t : Type := PENDING_ | SUCCESS_ | ERROR_.
Definition value (s : t) : string :=
  match s with
  | PENDING_ => "pending"
  | SUCCESS_ => "success"
  | ERROR_ => "error"
  end.
Definition PENDING : string := value PENDING_.
Definition SUCCESS : string := value SUCCESS_.
Definition ERROR : string := value ERROR_.
Definition terminal (s : t) : bool :=
  match s with PENDING_ => false | _ => true end.
End TaskStatus.

(** Modelled from the spec: [TaskItem] of [src.server.structures.task] is
    not part of the sources at hand; a task carries its identifier and its
    status, and [as_json] is the view "identity + initial status". *)
Record TaskItem : Type := mkTask { task_id : string; status : string }.

Definition as_json (task : TaskItem) : pyval :=
  PDict [("task_id", PStr (task_id task)); ("status", PStr (status task))].

(** ** Requests and responses *)

(** *** Byte strings

    A string is a sequence of bytes: a request argument as received, or
    the UTF-8 encoding of a decoded [str]. *)

Definition byte_of (c : ascii) : N := N_of_ascii c.

Definition in_range (lo hi : N) (c : ascii) : bool :=
  (lo <=? byte_of c)%N && (byte_of c <=? hi)%N.

Definition continuation (c : ascii) : bool := in_range 128 191 c.

(** Range of the second byte of a three-byte and of a four-byte
    sequence, by its first byte (no overlong forms, no surrogates,
    nothing above U+10FFFF). *)
Definition second_of_three (c c1 : ascii) : bool :=
  if N.eqb (byte_of c) 224 then in_range 160 191 c1
  else if N.eqb (byte_of c) 237 then in_range 128 159 c1
  else continuation c1.

Definition second_of_four (c c1 : ascii) : bool :=
  if N.eqb (byte_of c) 240 then in_range 144 191 c1
  else if N.eqb (byte_of c) 244 then in_range 128 143 c1
  else continuation c1.

(** [value.decode("utf-8")] succeeds: the bytes are well-formed UTF-8. *)
Fixpoint valid_utf8 (s : string) : bool :=
  match s with
  | EmptyString => true
  | String c s1 =>
      if in_range 0 127 c then valid_utf8 s1
      else
        match s1 with
        | EmptyString => false
        | String c1 s2 =>
            if in_range 194 223 c then continuation c1 && valid_utf8 s2
            else
              match s2 with
              | EmptyString => false
              | String c2 s3 =>
                  if in_range 224 239 c then
                    second_of_three c c1 && continuation c2 && valid_utf8 s3
                  else
                    match s3 with
                    | EmptyString => false
                    | String c3 s4 =>
                        in_range 240 244 c && second_of_four c c1
                        && continuation c2 && continuation c3 && valid_utf8 s4
                    end
              end
        end
  end.

Definition bytes (l : list N) : string :=
  string_of_list_ascii (ascii_of_N <$> l).

Definition reverse (s : string) : string :=
  string_of_list_ascii (rev (list_ascii_of_string s)).

(** The characters [str.isspace] accepts, UTF-8 encoded: the ASCII ones,
    U+0085, U+00A0, U+1680, U+2000 to U+200A, U+2028, U+2029, U+202F,
    U+205F and U+3000. *)
Definition whitespace : list string :=
  (bytes <$> [[9]; [10]; [11]; [12]; [13]; [28]; [29]; [30]; [31]; [32];
              [194; 133]; [194; 160]; [225; 154; 128]])%N
  ++ ((fun b => bytes [226; 128; b]) <$>
        [128; 129; 130; 131; 132; 133; 134; 135; 136; 137; 138;
         168; 169; 175])%N
  ++ (bytes <$> [[226; 129; 159]; [227; 128; 128]])%N.

Fixpoint strip_prefix (p s : string) : option string :=
  match p with
  | EmptyString => Some s
  | String a p' =>
      match s with
      | EmptyString => None
      | String b s' => if Ascii.eqb a b then strip_prefix p' s' else None
      end
  end.

Fixpoint strip_any (tokens : list string) (s : string) : option string :=
  match tokens with
  | [] => None
  | t :: ts =>
      match strip_prefix t s with
      | Some r => Some r
      | None => strip_any ts s
      end
  end.

Fixpoint lstrip_with (tokens : list string) (fuel : nat) (s : string) : string :=
  match fuel with
  | O => s
  | Datatypes.S n =>
      match strip_any tokens s with
      | Some r => lstrip_with tokens n r
      | None => s
      end
  end.

(** [s.strip()]: every token is at least one byte long, so the length of
    the string is fuel enough. *)
Definition strip (s : string) : string :=
  let l := lstrip_with whitespace (String.length s) s in
  reverse (lstrip_with (reverse <$> whitespace) (String.length l) (reverse l)).

(** [_remove_control_chars_regex.sub(" ", s)], the regex being
    [[\x00-\x08\x0e-\x1f]]. *)
Fixpoint remove_control_chars (s : string) : string :=
  match s with
  | EmptyString => EmptyString
  | String c s' =>
      String (if in_range 0 8 c || in_range 14 31 c then " "%char else c)
        (remove_control_chars s')
  end.

Definition hex_digit (n : N) : ascii :=
  match String.get (N.to_nat n) "0123456789abcdef" with
  | Some c => c
  | None => "0"%char
  end.

Fixpoint contains (c : ascii) (s : string) : bool :=
  match s with
  | EmptyString => false
  | String b s' => Ascii.eqb b c || contains c s'
  end.

Fixpoint escape_bytes (q : ascii) (s : string) : string :=
  match s with
  | EmptyString => EmptyString
  | String c s' =>
      (if Ascii.eqb c q || Ascii.eqb c "092"%char then String "092"%char (String c "")
       else if N.eqb (byte_of c) 9 then "\t"
       else if N.eqb (byte_of c) 10 then "\n"
       else if N.eqb (byte_of c) 13 then "\r"
       else if in_range 32 126 c then String c ""
       else String "092"%char
              (String "x"%char
                 (String (hex_digit (byte_of c / 16))
                    (String (hex_digit (byte_of c mod 16)) ""))))
      ++ escape_bytes q s'
  end.

(** [repr(value)] of a [bytes] value. *)
Definition bytes_repr (s : string) : string :=
  let q := if contains "'"%char s && negb (contains "034"%char s)
           then "034"%char else "'"%char in
  "b" ++ String q (escape_bytes q s) ++ String q "".

(** *** Requests *)

(** The part of [HTTPServerRequest] the handlers read: the arguments,
    each name with the byte strings received for it in order, and the raw
    body. *)
Record request : Type := mkRequest {
  arguments : gmap string (list string);
  body : string
}.

(** [RequestHandler.decode_argument] *)
Definition decode_argument (name value : string) : outcome string :=
  if valid_utf8 value then Done value
  else Thrown (HTTPError 400
                 ("Invalid unicode in " ++ name ++ ": "
                  ++ bytes_repr (substring 0 40 value))).

(** [RequestHandler._get_arguments], with [strip=True]. *)
Fixpoint _get_arguments (name : string) (source : list string)
    : outcome (list string) :=
  match source with
  | [] => Done []
  | v :: vs =>
      match decode_argument name v with
      | Thrown e => Thrown e
      | Done s =>
          match _get_arguments name vs with
          | Thrown e => Thrown e
          | Done values => Done (strip (remove_control_chars s) :: values)
          end
      end
  end.

(** [self.get_argument(name, default=default)]: the last value of the
    argument, decoded and stripped, or the default when there is none;
    a value that is not valid UTF-8 raises [HTTPError(400)]. *)
Definition get_argument (req : request) (name : string)
    (default : option string) : outcome (option string) :=
  match _get_arguments name (from_option id [] (arguments req !! name)) with
  | Thrown e => Thrown e
  | Done args =>
      match last args with
      | Some a => Done (Some a)
      | None => Done default
      end
  end.

(** Modelled from the spec: [ServerResponse]
    ([src.server.structures.response]) is not part of the sources at
    hand; the envelopes it builds are kept as uninterpreted constructors
    of the message they carry.  A chunk is what a handler hands to
    [self.write]. *)
Inductive chunk : Type :=
| Text (s : string)
| Json (v : pyval)
| SuccessEnvelope (msg : string)
| ErrorEnvelope (msg : string).

Record response : Type := mkResponse {
  status_code : Z;
  written : list chunk
}.

(** A fresh handler answers 200 with an empty body. *)
Definition initial_response : response := mkResponse 200 [].

(** ** Collaborator calls *)

Inductive call : Type :=
| RedisGet (key : pyval)
| RedisSet (key value : pyval)
| CreateTask (task : TaskItem)
| GetTask (id : pyval)
| GetTasks (limit : pyval)
| GetResults (id : pyval)
| RunTask (task : TaskItem) (cases : pyval)
| PublishTask (task : TaskItem) (cases : pyval).

Definition is_store_read (c : call) : bool :=
  match c with
  | GetTask _ | GetTasks _ | GetResults _ => true
  | _ => false
  end.

Definition is_cache_read (c : call) : bool :=
  match c with RedisGet _ => true | _ => false end.

Definition is_cache_write (c : call) : bool :=
  match c with RedisSet _ _ => true | _ => false end.

Definition is_dispatch (c : call) : bool :=
  match c with RunTask _ _ | PublishTask _ _ => true | _ => false end.

Definition is_create (c : call) : bool :=
  match c with CreateTask _ => true | _ => false end.

(** The library functions the handlers call: [tornado.escape.json_decode]
    and [json_encode], [json.dumps(_, default=str)] and the builtin
    [int]. *)
Record Library : Type := mkLibrary {
  lib_json_decode : string -> pyresult pyval;
  lib_json_encode : pyval -> pyresult string;
  lib_dumps : pyval -> pyresult string;
  lib_int : string -> pyresult Z
}.

(** The environment of the handlers over a collaborator state [S]:
    [perform] runs a collaborator call, [new_task_id] is the identifier
    allocation of [TaskItem()], the rest are library functions. *)
Record Collaborators (S : Type) : Type := mkCollaborators {
  perform : call -> S -> pyresult pyval * S;
  new_task_id : S -> string * S;
  json_decode : string -> pyresult pyval;
  json_encode : pyval -> pyresult string;
  dumps : pyval -> pyresult string;
  int : string -> pyresult Z
}.
Arguments perform {S} _ _ _.
Arguments new_task_id {S} _ _.
Arguments json_decode {S} _ _.
Arguments json_encode {S} _ _.
Arguments dumps {S} _ _.
Arguments int {S} _ _.

(** ** The handler monad *)

(** State threaded through a handler run: the collaborators' state, the
    trace of collaborator calls with their outcomes (oldest first), the
    lines the handlers log, and the response under construction. *)
Record hstate (S : Type) : Type := mkHstate {
  ext : S;
  trace : list (call * pyresult pyval);
  logs : list string;
  resp : response
}.
Arguments mkHstate {S} _ _ _ _.
Arguments ext {S} _.
Arguments trace {S} _.
Arguments logs {S} _.
Arguments resp {S} _.

Definition start {S : Type} (s : S) : hstate S :=
  mkHstate s [] [] initial_response.

Definition M (S A : Type) : Type := hstate S -> outcome A * hstate S.

Definition ret {S A} (a : A) : M S A := fun h => (Done a, h).

Definition bind {S A B} (m : M S A) (k : A -> M S B) : M S B :=
  fun h =>
    match m h with
    | (Done a, h') => k a h'
    | (Thrown e, h') => (Thrown e, h')
    end.

(** [try: m except Exception as err: handler(str(err))]; an [HTTPError]
    is an [Exception] and is caught like any other. *)
Definition try_except {S A} (m : M S A) (handler : string -> M S A) : M S A :=
  fun h =>
    match m h with
    | (Done a, h') => (Done a, h')
    | (Thrown e, h') => handler (message e) h'
    end.

(** A pure library call that may raise. *)
Definition lift {S A} (r : pyresult A) : M S A := fun h => (of_result r, h).

(** A step of the framework that may raise. *)
Definition step {S A} (o : outcome A) : M S A := fun h => (o, h).

Notation "'let*' x ':=' c1 'in' c2" := (bind c1 (fun x => c2))
  (at level 10, x binder, c1 at level 100, c2 at level 200).

(** Where a [try] block leaves its function: by falling through with a
    value, or by an early [return]. *)
Inductive flow (A : Type) : Type :=
| Continue (a : A)
| Return.
Arguments Continue {A} a.
Arguments Return {A}.

(** ** Handler primitives *)

Section Primitives.
Context {S : Type} (E : Collaborators S).

(** A call to a collaborator: it runs on the collaborators' state and is
    appended, with its outcome, to the trace. *)
Definition call_ (c : call) : M S pyval := fun h =>
  let '(r, s') := perform E c (ext h) in
  (of_result r, mkHstate s' (trace h ++ [(c, r)]) (logs h) (resp h)).

(** [TaskItem()]: a new identifier, status [PENDING]. *)
Definition TaskItem_new : M S TaskItem := fun h =>
  let '(i, s') := new_task_id E (ext h) in
  (Done (mkTask i TaskStatus.PENDING),
   mkHstate s' (trace h) (logs h) (resp h)).

Definition logger_info (msg : string) : M S unit := fun h =>
  (Done tt, mkHstate (ext h) (trace h) (logs h ++ [msg]) (resp h)).

Definition set_status (code : Z) : M S unit := fun h =>
  (Done tt, mkHstate (ext h) (trace h) (logs h)
            (mkResponse code (written (resp h)))).

Definition write (c : chunk) : M S unit := fun h =>
  (Done tt, mkHstate (ext h) (trace h) (logs h)
            (mkResponse (status_code (resp h)) (written (resp h) ++ [c]))).

(** [self.write(chunk)] for a value obtained at run time: Tornado
    accepts bytes, str and dict, and raises [TypeError] otherwise. *)
Definition write_val (v : pyval) : M S unit :=
  match v with
  | PStr s => write (Text s)
  | PDict _ => write (Json v)
  | PList _ =>
      lift (Raise ("write() only accepts bytes, unicode, and dict objects"
                   ++ ". Lists not accepted for security reasons; see "
                   ++ "http://www.tornadoweb.org/en/stable/web.html"
                   ++ "#tornado.web.RequestHandler.write"))
  | _ => lift (Raise "write() only accepts bytes, unicode, and dict objects")
  end.

(** [int(limit)] for a request argument. *)
Definition int_arg (a : option string) : pyresult Z :=
  match a with
  | Some s => int E s
  | None => Raise ("int() argument must be a string, a bytes-like object "
                   ++ "or a real number, not 'NoneType'")
  end.
End Primitives.

(** ** [BaseHandler] *)

Module BaseHandler.
Section Methods.
Context {S : Type}.

Definition success (msg : string) : M S unit :=
  let* _ := set_status 200 in
  let response := SuccessEnvelope msg in
  write response.

Definition error (msg : string) : M S unit :=
  let* _ := set_status 500 in
  let response := ErrorEnvelope msg in
  write response.
End Methods.
End BaseHandler.

(** ** [CreateTaskHandler] *)

Module CreateTaskHandler.
Section Methods.
Context {S : Type} (E : Collaborators S).

Definition unsupported_msg (execution_type : option string) : string :=
  "Unsupported value for parameter 'type': " ++ str_arg execution_type
    ++ ". " ++ "Supported values: 'queue', 'process'".

Definition post (req : request) : M S unit :=
  let* execution_type := step (get_argument req "type" (Some "queue")) in
  let* r :=
    try_except
      (let* body := lift (json_decode E (body req)) in
       let* task := TaskItem_new E in
       let* _ := call_ E (CreateTask task) in
       let* dispatched :=
         if bool_decide (execution_type = Some "process") then
           let* _ := call_ E (RunTask task body) in ret (Continue tt)
         else if bool_decide (execution_type = Some "queue") then
           let* _ := call_ E (PublishTask task body) in ret (Continue tt)
         else
           let* _ := BaseHandler.error (unsupported_msg execution_type) in
           ret Return in
       match dispatched with
       | Return => ret Return
       | Continue _ =>
           let* response := lift (json_encode E (as_json task)) in
           ret (Continue response)
       end)
      (fun create_task_err =>
         let* _ := BaseHandler.error
                     ("Unexpected error at task creating: " ++ create_task_err) in
         ret Return) in
  match r with
  | Return => ret tt
  | Continue response => write (Text response)
  end.
End Methods.
End CreateTaskHandler.

(** ** [CreateTaskQueueHandler] *)

Module CreateTaskQueueHandler.
Section Methods.
Context {S : Type} (E : Collaborators S).

Definition post (req : request) : M S unit :=
  let* r :=
    try_except
      (let* body := lift (json_decode E (body req)) in
       let* task := TaskItem_new E in
       let* _ := call_ E (CreateTask task) in
       let* _ := call_ E (PublishTask task body) in
       let* response := lift (json_encode E (as_json task)) in
       ret (Continue response))
      (fun create_task_err =>
         let* _ := BaseHandler.error
                     ("Unexpected error at task creating: " ++ create_task_err) in
         ret Return) in
  match r with
  | Return => ret tt
  | Continue response => write (Text response)
  end.
End Methods.
End CreateTaskQueueHandler.

(** ** [ListTaskHandler] *)

Module ListTaskHandler.
Section Methods.
Context {S : Type} (E : Collaborators S).

Definition get (req : request) : M S unit :=
  let* task_id := step (get_argument req "task_id" None) in
  let* limit := step (get_argument req "limit" None) in
  let* r :=
    try_except
      (let* found :=
         if truthy (of_arg task_id) then
           call_ E (GetTask (of_arg task_id))
         else
           let* n :=
             if truthy (of_arg limit) then
               let* z := lift (int_arg E limit) in ret (PInt z)
             else ret PNone in
           call_ E (GetTasks n) in
       let* tasks := lift (dumps E found) in
       ret (Continue tasks))
      (fun list_task_err =>
         let* _ := BaseHandler.error
                     ("Unexpected error at tasks listing: " ++ list_task_err) in
         ret Return) in
  match r with
  | Return => ret tt
  | Continue tasks => write (Text tasks)
  end.
End Methods.
End ListTaskHandler.

(** ** [ResultsHandler] *)

Module ResultsHandler.
Section Methods.
Context {S : Type} (E : Collaborators S).

(** [db_results.get("task", {}).get("status", "")] *)
Definition status_of (db_results : pyval) : pyresult pyval :=
  match py_get db_results "task" (PDict []) with
  | Ok task => py_get task "status" (PStr "")
  | Raise err => Raise err
  end.

Definition get (req : request) : M S unit :=
  try_except
    (let* task_id := step (get_argument req "task_id" None) in
     let* redis_cache := call_ E (RedisGet (of_arg task_id)) in
     if truthy redis_cache then
       let* _ := logger_info
                   ("Redis cache is available, task '" ++ str_arg task_id ++ "'") in
       write_val redis_cache
     else
       let* db_results := call_ E (GetResults (of_arg task_id)) in
       let* json_results := lift (dumps E db_results) in
       let* status := lift (status_of db_results) in
       if py_eq_str status TaskStatus.PENDING then
         let* _ := logger_info
                     ("Status of the task '" ++ str_arg task_id ++ "' is '"
                      ++ TaskStatus.PENDING ++ "', skip Redis cache saving") in
         write (Text json_results)
       else
         let* _ := call_ E (RedisSet (of_arg task_id) (PStr json_results)) in
         let* _ := logger_info
                     ("Save results to Redis cache, task '" ++ str_arg task_id ++ "'") in
         write (Text json_results))
    (fun get_results_error =>
       BaseHandler.error
         ("Unexpected error at getting results: " ++ get_results_error)).
End Methods.
End ResultsHandler.

(** ** [HealthCheckHandler] *)

Module HealthCheckHandler.
Section Methods.
Context {S : Type}.

Definition get (req : request) : M S unit :=
  write_val (S := S) (PDict [("status", PStr "up")]).
End Methods.
End HealthCheckHandler.

(** The handler classes of the module, each with the one HTTP method it
    defines. *)
Inductive handler_class : Type :=
| CreateTaskHandler_post
| CreateTaskQueueHandler_post
| ListTaskHandler_get
| ResultsHandler_get
| HealthCheckHandler_get.

Definition handle {S : Type} (E : Collaborators S) (k : handler_class)
    (req : request) : M S unit :=
  match k with
  | CreateTaskHandler_post => CreateTaskHandler.post E req
  | CreateTaskQueueHandler_post => CreateTaskQueueHandler.post E req
  | ListTaskHandler_get => ListTaskHandler.get E req
  | ResultsHandler_get => ResultsHandler.get E req
  | HealthCheckHandler_get => HealthCheckHandler.get req
  end.

Definition is_error_envelope (c : chunk) : bool :=
  match c with ErrorEnvelope _ => true | _ => false end.

(** A response made of one chunk, whose status is 500 exactly when the
    chunk is the error envelope and 200 otherwise. *)
Definition well_formed (r : response) : Prop :=
  exists c, written r = [c]
            /\ status_code r = (if is_error_envelope c then 500 else 200)%Z.

(** The failure response of the two creation endpoints. *)
Definition create_failure (err : string) : response :=
  mkResponse 500 [ErrorEnvelope ("Unexpected error at task creating: " ++ err)].

(** The failure response of the listing endpoint. *)
Definition list_failure (err : string) : response :=
  mkResponse 500 [ErrorEnvelope ("Unexpected error at tasks listing: " ++ err)].

(** The dispatch call of a creation request, by execution mode. *)
Definition dispatch_call (execution_type : option string) (task : TaskItem)
    (cases : pyval) : option call :=
  if bool_decide (execution_type = Some "process") then Some (RunTask task cases)
  else if bool_decide (execution_type = Some "queue") then
    Some (PublishTask task cases)
  else None.

(** Tornado's page for an exception that left the handler method:
    [send_error] clears what was written, sets the status and writes
    [write_error]'s default page. *)
Definition error_page (code : Z) : response :=
  mkResponse code
    [Text ("<html><title>" ++ pretty code ++ ": " ++ reason code ++ "</title>"
           ++ "<body>" ++ pretty code ++ ": " ++ reason code ++ "</body></html>")].

(** Serving a request: the handler runs from a fresh handler state on the
    collaborators' current state.  An exception that leaves the method is
    answered by the error page, with the status of an [HTTPError] and
    with 500 for any other exception. *)
Definition serve {S : Type} (m : M S unit) (s : S) : hstate S :=
  match m (start s) with
  | (Done _, h) => h
  | (Thrown e, h) =>
      mkHstate (ext h) (trace h) (logs h)
        (error_page (from_option id 500%Z (http_status e)))
  end.

(** The arguments a handler reads outside any [try]. *)
Definition unguarded (k : handler_class) : list string :=
  match k with
  | CreateTaskHandler_post => ["type"]
  | ListTaskHandler_get => ["task_id"; "limit"]
  | _ => []
  end.

(** Every value received for the argument is valid UTF-8. *)
Definition decodes (req : request) (name : string) : bool :=
  forallb valid_utf8 (from_option id [] (arguments req !! name)).

(** ** The queue polling of the main block *)

(** [tornado.ioloop.PeriodicCallback(callback, callback_time)]: Tornado
    calls the callback every [callback_time] milliseconds.  The source
    passes the literal [1.000]. *)
Module PeriodicCallback.
Record t : Type := mk { callback_time : Z }.

(** The calls due within [window] milliseconds of the start. *)
Definition due (p : t) (window : Z) : Z := (window / callback_time p)%Z.

(** The specification's words, an interval "on the order of one second",
    read generously: at least a tenth of a second and at most ten
    seconds. *)
Definition about_one_second (p : t) : Prop :=
  (100 <= callback_time p <= 10000)%Z.
End PeriodicCallback.

Definition polling : PeriodicCallback.t := PeriodicCallback.mk 1.

Definition calls {S : Type} (h : hstate S) : list call := fst <$> trace h.

(** Counters over the calls of a run. *)
Definition count_calls {S : Type} (p : call -> bool) (h : hstate S) : nat :=
  length (List.filter p (calls h)).

Definition store_reads {S : Type} (h : hstate S) : nat := count_calls is_store_read h.
Definition cache_writes {S : Type} (h : hstate S) : nat := count_calls is_cache_write h.
Definition dispatches {S : Type} (h : hstate S) : nat := count_calls is_dispatch h.

(** Requests served one after the other, each on the collaborators' state
    the previous one left. *)
Fixpoint serve_all {S : Type} (ms : list (M S unit)) (s : S) : list (hstate S) :=
  match ms with
  | [] => []
  | m :: ms' => let h := serve m s in h :: serve_all ms' (ext h)
  end.

(** The collaborators [E], except that a falsy value read from the cache
    is replaced by [None], the answer of a cache miss. *)
Definition falsy_as_miss {S : Type} (E : Collaborators S) : Collaborators S :=
  mkCollaborators S
    (fun c s =>
       match c with
       | RedisGet _ =>
           match perform E c s with
           | (Ok v, s') => (Ok (if truthy v then v else PNone), s')
           | (Raise err, s') => (Raise err, s')
           end
       | _ => perform E c s
       end)
    (new_task_id E) (json_decode E) (json_encode E) (dumps E) (int E).

(** The one failure response of the results endpoint: status 500 and the
    error envelope of an unexpected error. *)
Definition results_failure (err : string) : response :=
  mkResponse 500 [ErrorEnvelope ("Unexpected error at getting results: " ++ err)].

Definition generic_failure (r : response) : Prop :=
  exists err, r = results_failure err.

(** ** The collaborators of the specification *)

(** Modelled from the spec: the Task Record Store ([src.db.crud]), the
    Result Cache ([src.cache.redis]), the Work Queue
    ([src.queue.publisher]) and the synchronous executor
    ([src.server.handlers.task_spawner]) are not part of the sources at
    hand.  They are modelled by the contracts of the specification's
    external interfaces: a keyed store of task rows, a keyed cache, a
    queue of published payloads, and an executor that performs the
    terminal transition before it returns.  Any call may instead fail,
    as chosen by an oracle. *)
Module Backend.

Record row : Type := mkRow {
  row_status : TaskStatus.t;
  row_results : pyval
}.

Record t : Type := mk {
  tasks : gmap string row;
  cache : gmap string string;
  queue : list (TaskItem * pyval);
  allocated : nat
}.

(** The environment's choices: which calls fail (and with what
    message), what the work of a payload produces, and how the store
    answers when asked for the results of an identifier it has no
    record of (the contract's [NotFound]). *)
Record oracle : Type := mkOracle {
  fault : call -> option string;
  executor : pyval -> pyresult pyval;
  on_missing : pyval -> pyresult pyval
}.

Definition task_view (id : string) (r : row) : pyval :=
  PDict [("task_id", PStr id);
         ("status", PStr (TaskStatus.value (row_status r)))].

Definition results_view (id : string) (r : row) : pyval :=
  PDict [("task", task_view id r); ("results", row_results r)].

Definition not_found (id : pyval) : string :=
  "TaskNotFoundError: " ++ match id with PStr s => s | _ => type_name id end.

Definition bad_key (key : pyval) : string :=
  "DataError: Invalid input of type: '" ++ type_name key ++ "'".

Definition limited (limit : pyval) (l : list pyval) : list pyval :=
  match limit with
  | PInt n => take (Z.to_nat n) l
  | _ => l
  end.

Definition set_tasks (b : t) (m : gmap string row) : t :=
  mk m (cache b) (queue b) (allocated b).

Definition set_cache (b : t) (m : gmap string string) : t :=
  mk (tasks b) m (queue b) (allocated b).

Definition set_queue (b : t) (q : list (TaskItem * pyval)) : t :=
  mk (tasks b) (cache b) q (allocated b).

(** [updateStatus(id, status, resultPayload)] *)
Definition finish (id : string) (outcome : pyresult pyval) (b : t) : t :=
  match outcome with
  | Ok res => set_tasks b (<[id := mkRow TaskStatus.SUCCESS_ res]> (tasks b))
  | Raise err =>
      set_tasks b (<[id := mkRow TaskStatus.ERROR_ (PStr err)]> (tasks b))
  end.

(** Modelled from the spec: the operations of the absent collaborators,
    [get]/[set] of the cache, [createTask]/[getTask] of the store,
    [publish] of the queue and [run] of the executor. *)
Definition perform (o : oracle) (c : call) (b : t) : pyresult pyval * t :=
  match fault o c with
  | Some err => (Raise err, b)
  | None =>
      match c with
      | RedisGet (PStr k) => (Ok (from_option PStr PNone (cache b !! k)), b)
      | RedisSet (PStr k) (PStr v) =>
          (Ok (PBool true), set_cache b (<[k := v]> (cache b)))
      | RedisGet k => (Raise (bad_key k), b)
      | RedisSet (PStr _) v => (Raise (bad_key v), b)
      | RedisSet k _ => (Raise (bad_key k), b)
      | CreateTask task =>
          match tasks b !! task_id task with
          | Some _ => (Raise ("IntegrityError: " ++ task_id task), b)
          | None =>
              (Ok PNone,
               set_tasks b (<[task_id task :=
                                mkRow TaskStatus.PENDING_ (PList [])]> (tasks b)))
          end
      | GetTask (PStr id) =>
          match tasks b !! id with
          | Some r => (Ok (task_view id r), b)
          | None => (Raise (not_found (PStr id)), b)
          end
      | GetTask id => (Raise (not_found id), b)
      | GetTasks limit =>
          (Ok (PList (limited limit
                        ((fun kr => task_view (fst kr) (snd kr))
                           <$> map_to_list (tasks b)))), b)
      | GetResults (PStr id) =>
          match tasks b !! id with
          | Some r => (Ok (results_view id r), b)
          | None => (on_missing o (PStr id), b)
          end
      | GetResults id => (on_missing o id, b)
      | RunTask task cases =>
          (Ok PNone, finish (task_id task) (executor o cases) b)
      | PublishTask task cases =>
          (Ok PNone, set_queue b (queue b ++ [(task, cases)]))
      end
  end.

(** Modelled from the spec: identifiers are allocated in sequence, [T1],
    [T2], ...; the store rejects an identifier it already holds. *)
Definition new_task_id (b : t) : string * t :=
  ("T" ++ pretty (allocated b),
   mk (tasks b) (cache b) (queue b) (Datatypes.S (allocated b))).

Definition env (o : oracle) (L : Library) : Collaborators t :=
  mkCollaborators t (perform o) new_task_id
    (lib_json_decode L) (lib_json_encode L) (lib_dumps L) (lib_int L).

Definition empty : t := mk ∅ ∅ [] 1.

(** No call fails; the work of a payload returns the payload; an
    absent record is signalled by an exception. *)
Definition reliable : oracle :=
  mkOracle (fun _ => None) Ok (fun id => Raise (not_found id)).

(** Exactly the calls selected by [sel] fail, with message [err]. *)
Definition failing (sel : call -> bool) (err : string) : oracle :=
  mkOracle (fun c => if sel c then Some err else None) Ok
    (fun id => Raise (not_found id)).

(** The store signals an absent record by an exception. *)
Definition signals_not_found (o : oracle) : Prop :=
  forall id, exists err, on_missing o id = Raise err.

End Backend.

(** ** A library for examples *)

(** A stand-in for the library functions on the values the examples use:
    the serializer prints values whose strings need no escaping the way
    [json.dumps] does, the decoder knows the bodies of the examples and
    rejects the rest, [int] reads an optionally negated decimal
    numeral. *)
Module Plain.

Definition quote : string := String "034"%char "".

Definition join (sep : string) (l : list string) : string :=
  String.concat sep l.

Fixpoint dumps (v : pyval) : string :=
  match v with
  | PNone => "null"
  | PBool true => "true"
  | PBool false => "false"
  | PInt z => pretty z
  | PStr s => quote ++ s ++ quote
  | PList l => "[" ++ join ", " (map dumps l) ++ "]"
  | PDict d =>
      "{" ++ join ", "
               (map (fun kv => quote ++ fst kv ++ quote ++ ": " ++ dumps (snd kv)) d)
          ++ "}"
  end.

Definition json_decode (s : string) : pyresult pyval :=
  if String.eqb s "{}" then Ok (PDict [])
  else if String.eqb s "[]" then Ok (PList [])
  else if String.eqb s "null" then Ok PNone
  else Raise "Expecting value: line 1 column 1 (char 0)".

Definition int (s : string) : pyresult Z :=
  match NilZero.int_of_string s with
  | Some d => Ok (Z.of_int d)
  | None => Raise ("invalid literal for int() with base 10: '" ++ s ++ "'")
  end.

Definition library : Library :=
  mkLibrary json_decode (fun v => Ok (dumps v)) (fun v => Ok (dumps v)) int.

End Plain.

(** ** Requests and states of the examples *)

Module Examples.

Definition env (o : Backend.oracle) : Collaborators Backend.t :=
  Backend.env o Plain.library.

Definition results_of (id : string) : request :=
  mkRequest {["task_id" := [id]]} "".

Definition create (mode body : string) : request :=
  mkRequest {["type" := [mode]]} body.


Definition listing (args : list (string * string)) : request :=
  mkRequest (list_to_map ((fun kv => (fst kv, [snd kv])) <$> args)) "".

(** A byte string that is not valid UTF-8: the single byte FF. *)
Definition invalid : string := bytes [255%N].

(** A store holding task [T1] with the given status and output. *)
Definition with_T1 (st : TaskStatus.t) (out : pyval)
    (cache : gmap string string) : Backend.t :=
  Backend.mk {["T1" := Backend.mkRow st out]} cache [] 2.

Definition done_T1 : Backend.t :=
  with_T1 TaskStatus.SUCCESS_ (PList [PInt 2]) ∅.

Definition pending_T1 : Backend.t :=
  with_T1 TaskStatus.PENDING_ (PList []) ∅.

Definition view_T1 : pyval :=
  Backend.results_view "T1" (Backend.mkRow TaskStatus.SUCCESS_ (PList [PInt 2])).

Definition json_T1 : string := Plain.dumps view_T1.

(** T1 finished, with an empty string cached under its identifier. *)
Definition blank_T1 : Backend.t :=
  with_T1 TaskStatus.SUCCESS_ (PList [PInt 2]) {["T1" := ""]}.

(** T1 finished, with its serialized result cached. *)
Definition cached_T1 : Backend.t :=
  with_T1 TaskStatus.SUCCESS_ (PList [PInt 2]) {["T1" := json_T1]}.

(** The three endpoints, served on the specification's collaborators. *)
Definition query (o : Backend.oracle) (id : string) (b : Backend.t)
    : hstate Backend.t :=
  serve (ResultsHandler.get (env o) (results_of id)) b.

Definition submit (o : Backend.oracle) (mode body : string) (b : Backend.t)
    : hstate Backend.t :=
  serve (CreateTaskHandler.post (env o) (create mode body)) b.

Definition list_tasks (o : Backend.oracle) (args : list (string * string))
    (b : Backend.t) : hstate Backend.t :=
  serve (ListTaskHandler.get (env o) (listing args)) b.

(** No call fails; an absent record reads as [None]. *)
Definition none_missing : Backend.oracle :=
  Backend.mkOracle (fun _ => None) Ok (fun _ => Ok PNone).

(** A library whose [json_encode] always raises. *)
Definition no_encode : Library :=
  mkLibrary Plain.json_decode (fun _ => Raise "Object is not JSON serializable")
    (fun v => Ok (Plain.dumps v)) Plain.int.

(** A request without any argument. *)
Definition bare (body : string) : request := mkRequest ∅ body.

End Examples.

(** * Properties of the handlers *)

(** Symbolic execution of a handler: unfold the monad, then split on the
    outcome of the next collaborator call. *)
Ltac unfold_monad :=
  unfold serve, start, bind, try_except, ret, lift, step, call_, TaskItem_new,
    logger_info, write_val, write, set_status,
    BaseHandler.error, BaseHandler.success, lift, of_result in *.

Ltac split_call :=
  match goal with
  | |- context [perform ?E ?c ?s] =>
      let r := fresh "r" in
      let s' := fresh "s" in
      let Hc := fresh "Hcall" in
      destruct (perform E c s) as [r s'] eqn:Hc; destruct r; simpl
  end.

(** ** Reading an argument *)

Section Arguments.
Context (req : request) (name : string).

Lemma decode_argument_thrown (v : string) (e : exn) :
  decode_argument name v = Thrown e -> http_status e = Some 400%Z.
Proof.
  unfold decode_argument. destruct (valid_utf8 v); [done|].
  by intros [= <-].
Qed.

Lemma _get_arguments_spec (source : list string) :
  match _get_arguments name source with
  | Done values =>
      forallb valid_utf8 source = true
      /\ values = (fun v => strip (remove_control_chars v)) <$> source
  | Thrown e => forallb valid_utf8 source = false /\ http_status e = Some 400%Z
  end.
Proof.
  induction source as [|v vs IH]; simpl; [done|].
  unfold decode_argument at 1.
  destruct (valid_utf8 v) eqn:Hv; simpl; [|done].
  destruct (_get_arguments name vs) as [values|e]; simpl.
  - destruct IH as [-> ->]. done.
  - done.
Qed.

(** Reading an argument raises exactly when one of the values received
    for it is not valid UTF-8, and what it raises is an [HTTPError] with
    status 400. *)
Lemma get_argument_spec (default : option string) :
  match get_argument req name default with
  | Done a => decodes req name = true
  | Thrown e => decodes req name = false /\ http_status e = Some 400%Z
  end.
Proof.
  unfold get_argument, decodes.
  pose proof (_get_arguments_spec (from_option id [] (arguments req !! name)))
    as Hspec.
  destruct (_get_arguments name _) as [values|e].
  - destruct Hspec as [Hv _]. by destruct (last values).
  - done.
Qed.

Lemma get_argument_thrown (default : option string) (e : exn) :
  get_argument req name default = Thrown e -> http_status e = Some 400%Z.
Proof.
  intros He. pose proof (get_argument_spec default) as H.
  rewrite He in H. apply H.
Qed.

(** An argument that was not sent reads as the default. *)
Lemma get_argument_absent (default : option string) :
  arguments req !! name = None -> get_argument req name default = Done default.
Proof. intros Ha. unfold get_argument. by rewrite Ha. Qed.
End Arguments.

(** ** Handlers that never let an exception out *)

Section Returns.
Context {S : Type} (E : Collaborators S) (req : request) (h : hstate S).

Lemma results_get_returns : fst (ResultsHandler.get E req h) = Done tt.
Proof.
  unfold ResultsHandler.get. unfold_monad.
  destruct (get_argument req "task_id" None) as [task_id|e]; simpl; [|done].
  split_call; [|done].
  destruct (truthy a); simpl; [by destruct a|].
  split_call; [|done].
  destruct (dumps E a0); simpl; [|done].
  destruct (ResultsHandler.status_of a0) as [st|]; simpl; [|done].
  destruct (py_eq_str st TaskStatus.PENDING); simpl; [done|].
  by split_call.
Qed.

Lemma queue_post_returns : fst (CreateTaskQueueHandler.post E req h) = Done tt.
Proof.
  unfold CreateTaskQueueHandler.post. unfold_monad.
  destruct (json_decode E (body req)); simpl; [|done].
  destruct (new_task_id E (ext h)) as [i s1]; simpl.
  split_call; [|done]. split_call; [|done].
  by destruct (json_encode E _).
Qed.

(** Once its mode has been read, a creation returns. *)
Lemma post_returns (execution_type : option string) :
  get_argument req "type" (Some "queue") = Done execution_type ->
  fst (CreateTaskHandler.post E req h) = Done tt.
Proof.
  intros Hmode. unfold CreateTaskHandler.post. unfold_monad. rewrite Hmode.
  destruct (json_decode E (body req)); simpl; [|done].
  destruct (new_task_id E (ext h)) as [i s1]; simpl.
  split_call; [|done].
  repeat case_bool_decide; simpl; try split_call; try done;
    destruct (json_encode E _); done.
Qed.

(** Once its two arguments have been read, a listing returns. *)
Lemma list_get_returns (task_id limit : option string) :
  get_argument req "task_id" None = Done task_id ->
  get_argument req "limit" None = Done limit ->
  fst (ListTaskHandler.get E req h) = Done tt.
Proof.
  intros Hid Hlimit. unfold ListTaskHandler.get. unfold_monad.
  rewrite Hid, Hlimit. simpl.
  destruct (truthy (of_arg task_id)); simpl.
  - split_call; [|done]. by destruct (dumps E _).
  - destruct (truthy (of_arg limit)); simpl.
    + destruct (int_arg E _); simpl; [|done].
      split_call; [|done]. by destruct (dumps E _).
    + split_call; [|done]. by destruct (dumps E _).
Qed.
End Returns.

(** ** Creation: bodies that do not decode *)

(** C8 (as amended): a creation request whose mode argument decodes and
    whose body [json_decode] rejects is answered by the 500 error
    envelope, and nothing else happens: no collaborator is called (no
    record creation, no publish, no run) and the collaborators' state is
    the one before the request.  When the mode argument is not valid
    UTF-8 the body is not looked at: reading the argument raises before
    the [try], Tornado answers with its 400 page, and equally nothing
    happens. *)
Theorem invalid_body_changes_nothing :
  (forall (S : Type) (E : Collaborators S) (req : request) (s : S)
          (execution_type : option string) (err : string),
      get_argument req "type" (Some "queue") = Done execution_type ->
      json_decode E (body req) = Raise err ->
      let h := serve (CreateTaskHandler.post E req) s in
      resp h = mkResponse 500
                 [ErrorEnvelope ("Unexpected error at task creating: " ++ err)]
      /\ trace h = []
      /\ ext h = s)
  /\ (forall (S : Type) (E : Collaborators S) (req : request) (s : S) (e : exn),
        get_argument req "type" (Some "queue") = Thrown e ->
        let h := serve (CreateTaskHandler.post E req) s in
        resp h = error_page 400 /\ trace h = [] /\ ext h = s).
Proof.
  split.
  - intros S E req s execution_type err Hmode Hdec.
    unfold CreateTaskHandler.post. unfold_monad.
    rewrite Hmode. simpl. rewrite Hdec. simpl. done.
  - intros S E req s e Hmode.
    pose proof (get_argument_thrown req "type" (Some "queue") e Hmode) as He.
    unfold CreateTaskHandler.post. unfold_monad.
    rewrite Hmode. simpl. by rewrite He.
Qed.

Lemma invalid_body_changes_nothing_witness :
  (resp (Examples.submit Backend.reliable "queue" "not json" Backend.empty)
     = mkResponse 500
         [ErrorEnvelope ("Unexpected error at task creating: "
                         ++ "Expecting value: line 1 column 1 (char 0)")]
   /\ trace (Examples.submit Backend.reliable "queue" "not json" Backend.empty) = []
   /\ ext (Examples.submit Backend.reliable "queue" "not json" Backend.empty)
      = Backend.empty)
  /\ (resp (Examples.submit Backend.reliable Examples.invalid "not json"
              Backend.empty) = error_page 400
      /\ trace (Examples.submit Backend.reliable Examples.invalid "not json"
                  Backend.empty) = []
      /\ ext (Examples.submit Backend.reliable Examples.invalid "not json"
                Backend.empty) = Backend.empty).
Proof.
  split.
  - apply (proj1 invalid_body_changes_nothing _ (Examples.env Backend.reliable)
             (Examples.create "queue" "not json") Backend.empty
             (Some "queue")); reflexivity.
  - apply (proj2 invalid_body_changes_nothing _ (Examples.env Backend.reliable)
             (Examples.create Examples.invalid "not json") Backend.empty
             (HTTPError 400 ("Invalid unicode in type: "
                             ++ bytes_repr Examples.invalid))).
    reflexivity.
Defined.

(** C8, as stated, fails: the body is not valid JSON and the mode
    argument is the byte FF; the call is answered by Tornado's 400 page,
    which is no error envelope. *)
Lemma undecodable_mode_is_answered_by_the_error_page :
  Plain.json_decode "not json"
    = Raise "Expecting value: line 1 column 1 (char 0)"
  /\ status_code (resp (Examples.submit Backend.reliable Examples.invalid
                          "not json" Backend.empty)) = 400%Z
  /\ existsb is_error_envelope
       (written (resp (Examples.submit Backend.reliable Examples.invalid
                         "not json" Backend.empty))) = false.
Proof. vm_compute. repeat split. Qed.
(** ** The paths of a result query *)

Section Results.
Context {S : Type} (E : Collaborators S) (req : request) (s : S).
Context (task_id : option string).
Hypothesis Hid : get_argument req "task_id" None = Done task_id.

Lemma truthy_str (v : string) : v <> "" -> truthy (PStr v) = true.
Proof. intros Hv. simpl. by apply negb_true_iff, String.eqb_neq. Qed.

(** Cache hit on a string: one call, the cached value is the answer. *)
Lemma get_hit (v : string) (s1 : S) :
  perform E (RedisGet (of_arg task_id)) s = (Ok (PStr v), s1) -> v <> "" ->
  serve (ResultsHandler.get E req) s =
    mkHstate s1 [(RedisGet (of_arg task_id), Ok (PStr v))]
      ["Redis cache is available, task '" ++ str_arg task_id ++ "'"]
      (mkResponse 200 [Text v]).
Proof.
  intros Hget Hv. unfold ResultsHandler.get. unfold_monad. rewrite Hid. simpl.
  rewrite Hget. simpl. pose proof (truthy_str v Hv) as Ht. simpl in Ht.
  by rewrite Ht.
Qed.

(** The cache read raises. *)
Lemma get_cache_raises (err : string) (s1 : S) :
  perform E (RedisGet (of_arg task_id)) s = (Raise err, s1) ->
  serve (ResultsHandler.get E req) s =
    mkHstate s1 [(RedisGet (of_arg task_id), Raise err)] [] (results_failure err).
Proof.
  intros Hget. unfold ResultsHandler.get. unfold_monad. rewrite Hid. simpl.
  by rewrite Hget.
Qed.

(** Cache miss, the store read raises. *)
Lemma get_store_raises (c : pyval) (s1 : S) (err : string) (s2 : S) :
  perform E (RedisGet (of_arg task_id)) s = (Ok c, s1) -> truthy c = false ->
  perform E (GetResults (of_arg task_id)) s1 = (Raise err, s2) ->
  serve (ResultsHandler.get E req) s =
    mkHstate s2 [(RedisGet (of_arg task_id), Ok c); (GetResults (of_arg task_id), Raise err)] []
      (results_failure err).
Proof.
  intros Hget Hc Hres. unfold ResultsHandler.get. unfold_monad. rewrite Hid. simpl.
  rewrite Hget, Hc. simpl. by rewrite Hres.
Qed.

(** Cache miss, record read, status [PENDING]: no cache write. *)
Lemma get_pending (c : pyval) (s1 : S) (db : pyval) (s2 : S)
    (js : string) (st : pyval) :
  perform E (RedisGet (of_arg task_id)) s = (Ok c, s1) -> truthy c = false ->
  perform E (GetResults (of_arg task_id)) s1 = (Ok db, s2) ->
  dumps E db = Ok js ->
  ResultsHandler.status_of db = Ok st ->
  py_eq_str st TaskStatus.PENDING = true ->
  serve (ResultsHandler.get E req) s =
    mkHstate s2 [(RedisGet (of_arg task_id), Ok c); (GetResults (of_arg task_id), Ok db)]
      ["Status of the task '" ++ str_arg task_id ++ "' is '"
       ++ TaskStatus.PENDING ++ "', skip Redis cache saving"]
      (mkResponse 200 [Text js]).
Proof.
  intros Hget Hc Hres Hjs Hst Hp. unfold ResultsHandler.get. unfold_monad. rewrite Hid. simpl. rewrite Hget, Hc. simpl. rewrite Hres. simpl.
  rewrite Hjs, Hst. simpl. by rewrite Hp.
Qed.

(** Cache miss, record read, status other than [PENDING]: the cache
    write is attempted, and its outcome decides the response. *)
Lemma get_finished (c : pyval) (s1 : S) (db : pyval) (s2 : S)
    (js : string) (st : pyval) (r : pyresult pyval) (s3 : S) :
  perform E (RedisGet (of_arg task_id)) s = (Ok c, s1) -> truthy c = false ->
  perform E (GetResults (of_arg task_id)) s1 = (Ok db, s2) ->
  dumps E db = Ok js ->
  ResultsHandler.status_of db = Ok st ->
  py_eq_str st TaskStatus.PENDING = false ->
  perform E (RedisSet (of_arg task_id) (PStr js)) s2 = (r, s3) ->
  serve (ResultsHandler.get E req) s =
    mkHstate s3
      [(RedisGet (of_arg task_id), Ok c); (GetResults (of_arg task_id), Ok db); (RedisSet (of_arg task_id) (PStr js), r)]
      (match r with
       | Ok _ => ["Save results to Redis cache, task '" ++ str_arg task_id ++ "'"]
       | Raise _ => []
       end)
      (match r with
       | Ok _ => mkResponse 200 [Text js]
       | Raise err => results_failure err
       end).
Proof.
  intros Hget Hc Hres Hjs Hst Hp Hset. unfold ResultsHandler.get.
  unfold_monad. rewrite Hid. simpl. rewrite Hget, Hc. simpl.
  rewrite Hres. simpl. rewrite Hjs, Hst. simpl. rewrite Hp. simpl.
  rewrite Hset. by destruct r.
Qed.

(** Every run of the handler is one of: a 200 answer, or the failure
    envelope; and a cache write only ever follows a record whose status
    is not [PENDING]. *)
Lemma get_classified :
  let h := serve (ResultsHandler.get E req) s in
  (status_code (resp h) = 200%Z \/ exists err, resp h = results_failure err)
  /\ (forall k v r, (RedisSet k v, r) ∈ trace h ->
        exists db st js,
          (GetResults (of_arg task_id), Ok db) ∈ trace h
          /\ ResultsHandler.status_of db = Ok st
          /\ py_eq_str st TaskStatus.PENDING = false
          /\ dumps E db = Ok js /\ k = (of_arg task_id) /\ v = PStr js).
Proof.
  unfold ResultsHandler.get. unfold_monad. rewrite Hid. simpl.
  split_call.
  - destruct (truthy a) eqn:Ha; simpl.
    + destruct a; simpl; (split; [eauto|]); intros k v r Hin;
        set_solver.
    + split_call.
      * destruct (dumps E a0) as [js|] eqn:Hjs; simpl;
          [|split; [eauto|set_solver]].
        destruct (ResultsHandler.status_of a0) as [st|] eqn:Hst; simpl;
          [|split; [eauto|set_solver]].
        destruct (py_eq_str st TaskStatus.PENDING) eqn:Hp; simpl;
          [split; [eauto|set_solver]|].
        split_call; (split; [eauto|]); intros k v r Hin;
          exists a0, st, js; set_solver.
      * split; [eauto|set_solver].
  - split; [eauto|set_solver].
Qed.
End Results.

Section ResultsAnswer.
Context {S : Type} (E : Collaborators S) (req : request) (s : S).

(** The identifier does not decode: the exception is raised inside the
    [try] and answered like any other. *)
Lemma get_thrown (e : exn) :
  get_argument req "task_id" None = Thrown e ->
  serve (ResultsHandler.get E req) s =
    mkHstate s [] [] (results_failure (message e)).
Proof.
  intros He. unfold ResultsHandler.get. unfold_monad. by rewrite He.
Qed.

Lemma get_answers :
  let h := serve (ResultsHandler.get E req) s in
  status_code (resp h) = 200%Z \/ exists err, resp h = results_failure err.
Proof.
  destruct (get_argument req "task_id" None) as [task_id|e] eqn:Hid.
  - apply (get_classified E req s task_id Hid).
  - simpl. rewrite (get_thrown e Hid). simpl. eauto.
Qed.
End ResultsAnswer.

(** ** The specification's collaborators, call by call *)

Section BackendCalls.
Context (o : Backend.oracle) (L : Library) (b : Backend.t).

Lemma perform_redis_get (k : string) :
  Backend.fault o (RedisGet (PStr k)) = None ->
  perform (Backend.env o L) (RedisGet (PStr k)) b =
    (Ok (from_option PStr PNone (Backend.cache b !! k)), b).
Proof. intros Hf. simpl. unfold Backend.perform. by rewrite Hf. Qed.

Lemma perform_redis_set (k v : string) :
  Backend.fault o (RedisSet (PStr k) (PStr v)) = None ->
  perform (Backend.env o L) (RedisSet (PStr k) (PStr v)) b =
    (Ok (PBool true), Backend.set_cache b (<[k := v]> (Backend.cache b))).
Proof. intros Hf. simpl. unfold Backend.perform. by rewrite Hf. Qed.

Lemma perform_get_results_found (i : string) (r : Backend.row) :
  Backend.fault o (GetResults (PStr i)) = None ->
  Backend.tasks b !! i = Some r ->
  perform (Backend.env o L) (GetResults (PStr i)) b =
    (Ok (Backend.results_view i r), b).
Proof. intros Hf Hr. simpl. unfold Backend.perform. by rewrite Hf, Hr. Qed.

Lemma perform_get_results_missing (i : string) :
  Backend.fault o (GetResults (PStr i)) = None ->
  Backend.tasks b !! i = None ->
  perform (Backend.env o L) (GetResults (PStr i)) b =
    (Backend.on_missing o (PStr i), b).
Proof. intros Hf Hr. simpl. unfold Backend.perform. by rewrite Hf, Hr. Qed.

Lemma status_of_view (i : string) (r : Backend.row) :
  ResultsHandler.status_of (Backend.results_view i r) =
    Ok (PStr (TaskStatus.value (Backend.row_status r))).
Proof. reflexivity. Qed.
End BackendCalls.

Lemma pending_iff (t : TaskStatus.t) :
  py_eq_str (PStr (TaskStatus.value t)) TaskStatus.PENDING
  = negb (TaskStatus.terminal t).
Proof. by destruct t. Qed.

(** ** Claims about cache-write failure and missing records *)

(** C1 (as amended): on the terminal-status branch (cache miss, record
    read, status other than PENDING) the response is decided by how the
    cache write ends: when it returns, whatever it returns, the caller
    gets the serialized result with status 200; when it raises, the
    exception is caught by the handler's [except] and the caller gets the
    500 error envelope, and nothing is logged. *)
Theorem cache_write_outcome {S : Type} (E : Collaborators S) (req : request)
    (s : S) (task_id : option string) (c : pyval) (s1 : S) (db : pyval)
    (s2 : S) (js : string) (st : pyval) :
  get_argument req "task_id" None = Done task_id ->
  perform E (RedisGet (of_arg task_id)) s = (Ok c, s1) ->
  truthy c = false ->
  perform E (GetResults (of_arg task_id)) s1 = (Ok db, s2) ->
  dumps E db = Ok js ->
  ResultsHandler.status_of db = Ok st ->
  py_eq_str st TaskStatus.PENDING = false ->
  let h := serve (ResultsHandler.get E req) s in
  match fst (perform E (RedisSet (of_arg task_id) (PStr js)) s2) with
  | Ok _ =>
      resp h = mkResponse 200 [Text js]
      /\ logs h = ["Save results to Redis cache, task '" ++ str_arg task_id ++ "'"]
  | Raise err =>
      resp h = results_failure err /\ logs h = []
  end.
Proof.
  intros Hid Hget Hc Hres Hjs Hst Hp h.
  destruct (perform E (RedisSet (of_arg task_id) (PStr js)) s2) as [r s3] eqn:Hset.
  subst h. rewrite (get_finished E req s task_id Hid c s1 db s2 js st r s3);
    try done.
  by destruct r.
Qed.

Lemma cache_write_outcome_witness :
  resp (Examples.query Backend.reliable "T1" Examples.done_T1)
    = mkResponse 200 [Text Examples.json_T1]
  /\ logs (Examples.query Backend.reliable "T1" Examples.done_T1)
     = ["Save results to Redis cache, task 'T1'"].
Proof.
  exact (cache_write_outcome (Examples.env Backend.reliable)
           (Examples.results_of "T1") Examples.done_T1 (Some "T1")
           PNone Examples.done_T1 Examples.view_T1
           Examples.done_T1 Examples.json_T1 (PStr TaskStatus.SUCCESS)
           eq_refl eq_refl eq_refl eq_refl eq_refl eq_refl eq_refl).
Defined.

(** C1, as stated, fails: task T1 is finished and not cached, the cache
    write raises; the query reaches the terminal-status branch and is
    answered by the 500 error envelope, not by the serialized result. *)
Lemma cache_write_failure_is_an_error_response :
  trace (Examples.query (Backend.failing is_cache_write "ConnectionError")
           "T1" Examples.done_T1)
    = [(RedisGet (PStr "T1"), Ok PNone);
       (GetResults (PStr "T1"), Ok Examples.view_T1);
       (RedisSet (PStr "T1") (PStr Examples.json_T1), Raise "ConnectionError")]
  /\ resp (Examples.query (Backend.failing is_cache_write "ConnectionError")
             "T1" Examples.done_T1)
     = results_failure "ConnectionError"
  /\ resp (Examples.query (Backend.failing is_cache_write "ConnectionError")
             "T1" Examples.done_T1)
     <> mkResponse 200 [Text Examples.json_T1].
Proof. vm_compute. repeat split; discriminate. Qed.

(** C3 (as amended): a result query for an identifier with no record and
    no cached value is answered by what the store's read does; when that
    read raises, the caller gets the 500 envelope "Unexpected error at
    getting results: <message>", nothing is cached and the state is
    unchanged.  That envelope is the only failure response of the
    handler: every response is a 200 or this envelope, so a missing
    record has no response of its own. *)
Theorem missing_record_outcome :
  (forall (o : Backend.oracle) (L : Library) (b : Backend.t) (req : request)
          (i err : string),
      get_argument req "task_id" None = Done (Some i) ->
      Backend.tasks b !! i = None ->
      Backend.cache b !! i = None ->
      Backend.fault o (RedisGet (PStr i)) = None ->
      Backend.fault o (GetResults (PStr i)) = None ->
      Backend.on_missing o (PStr i) = Raise err ->
      let h := serve (ResultsHandler.get (Backend.env o L) req) b in
      resp h = results_failure err /\ cache_writes h = 0 /\ ext h = b)
  /\ (forall (S : Type) (E : Collaborators S) (req : request) (s : S),
        let h := serve (ResultsHandler.get E req) s in
        status_code (resp h) = 200%Z \/ generic_failure (resp h)).
Proof.
  split.
  - intros o L b req i err Hid Hrow Hcache Hf1 Hf2 Hmiss h. subst h.
    rewrite (get_store_raises (Backend.env o L) req b (Some i) Hid PNone b
               err b).
    + done.
    + simpl of_arg. rewrite perform_redis_get by done. by rewrite Hcache.
    + done.
    + simpl of_arg. rewrite perform_get_results_missing by done.
      by rewrite Hmiss.
  - intros S E req s. apply (get_answers E req s).
Qed.

Lemma missing_record_outcome_witness :
  resp (Examples.query Backend.reliable "T9" Backend.empty)
    = results_failure "TaskNotFoundError: T9"
  /\ cache_writes (Examples.query Backend.reliable "T9" Backend.empty) = 0
  /\ ext (Examples.query Backend.reliable "T9" Backend.empty) = Backend.empty.
Proof.
  exact (proj1 missing_record_outcome Backend.reliable Plain.library
           Backend.empty (Examples.results_of "T9") "T9"
           "TaskNotFoundError: T9"
           eq_refl eq_refl eq_refl eq_refl eq_refl eq_refl).
Defined.

(** C3, as stated, fails: the store has no record of T9 and signals it;
    the caller gets the generic failure response, the same response an
    unrelated failure (here of the cache read) carrying that message
    gets. *)
Lemma missing_record_is_a_generic_failure :
  Backend.tasks Backend.empty !! "T9" = None
  /\ Backend.cache Backend.empty !! "T9" = None
  /\ generic_failure (resp (Examples.query Backend.reliable "T9" Backend.empty))
  /\ resp (Examples.query Backend.reliable "T9" Backend.empty)
     = resp (Examples.query
               (Backend.failing is_cache_read "TaskNotFoundError: T9")
               "T9" Backend.empty).
Proof.
  repeat split. exists "TaskNotFoundError: T9". reflexivity.
Qed.

(** ** The store and the cache of the specification, read and written *)

Section StoreFrame.
Context (o : Backend.oracle) (b : Backend.t).

(** Reads of the cache and of the store leave the state as it is. *)
Lemma backend_read_preserves (c : call) :
  is_cache_read c || is_store_read c = true ->
  snd (Backend.perform o c b) = b.
Proof.
  intros Hc. unfold Backend.perform.
  destruct (Backend.fault o c); [done|].
  destruct c; try discriminate Hc; simpl.
  - by destruct key.
  - destruct id; try done. by destruct (Backend.tasks b !! s).
  - done.
  - destruct id; try done. by destruct (Backend.tasks b !! s).
Qed.

(** A cache write changes nothing but the cache entry of its key. *)
Lemma backend_set_frame (key value : pyval) :
  let b' := snd (Backend.perform o (RedisSet key value) b) in
  Backend.tasks b' = Backend.tasks b
  /\ Backend.queue b' = Backend.queue b
  /\ Backend.allocated b' = Backend.allocated b
  /\ forall k, key <> PStr k -> Backend.cache b' !! k = Backend.cache b !! k.
Proof.
  unfold Backend.perform.
  destruct (Backend.fault o _); [done|].
  destruct key; try done. destruct value; try done. simpl.
  split_and!; try done. intros k Hk. apply lookup_insert_ne. congruence.
Qed.

(** A store that signals absent records hands out only views of records
    it holds. *)
Lemma backend_results_inv (id db : pyval) (b' : Backend.t) :
  Backend.signals_not_found o ->
  Backend.perform o (GetResults id) b = (Ok db, b') ->
  exists i row, id = PStr i /\ Backend.tasks b !! i = Some row
                /\ db = Backend.results_view i row.
Proof.
  intros Hnf. unfold Backend.perform.
  destruct (Backend.fault o _); [done|].
  destruct (Hnf id) as [err Herr].
  destruct id as [| | |i| |]; try (rewrite Herr; done).
  destruct (Backend.tasks b !! i) as [row|] eqn:Hrow.
  - intros [= <- <-]. by exists i, row.
  - rewrite Herr. done.
Qed.
End StoreFrame.

(** ** Claims about the status gate and the cache hit *)

(** C2: a value is written into the cache only if the status read from
    the store is terminal.  In the code, for every collaborator
    behaviour, a cache write follows a store read whose record has a
    status other than PENDING, which is SUCCESS or ERROR when the record
    carries one of the three statuses.  On the store of the
    specification, which hands out records with one of the three
    statuses and signals an absent record, a cache write is always
    under the queried identifier and after the read of its record, whose
    status is SUCCESS or ERROR.  When the status read is PENDING the
    query answers with the record's current view, performs no cache
    write, and leaves the cache without an entry for the identifier. *)
Theorem cache_write_only_when_terminal :
  (forall (S : Type) (E : Collaborators S) (req : request) (s : S),
      let h := serve (ResultsHandler.get E req) s in
      forall k v r, (RedisSet k v, r) ∈ trace h ->
        exists task_id db st,
          get_argument req "task_id" None = Done task_id
          /\ (GetResults (of_arg task_id), Ok db) ∈ trace h
          /\ ResultsHandler.status_of db = Ok st
          /\ py_eq_str st TaskStatus.PENDING = false
          /\ (forall t, st = PStr (TaskStatus.value t) ->
                t = TaskStatus.SUCCESS_ \/ t = TaskStatus.ERROR_))
  /\ (forall (o : Backend.oracle) (L : Library) (b : Backend.t)
             (req : request),
        Backend.signals_not_found o ->
        let h := serve (ResultsHandler.get (Backend.env o L) req) b in
        forall k v r, (RedisSet k v, r) ∈ trace h ->
          exists i row,
            get_argument req "task_id" None = Done (Some i)
            /\ k = PStr i
            /\ Backend.tasks b !! i = Some row
            /\ (GetResults (PStr i), Ok (Backend.results_view i row)) ∈ trace h
            /\ (Backend.row_status row = TaskStatus.SUCCESS_
                \/ Backend.row_status row = TaskStatus.ERROR_))
  /\ (forall (o : Backend.oracle) (L : Library) (b : Backend.t)
             (req : request) (i : string) (row : Backend.row) (js : string),
        get_argument req "task_id" None = Done (Some i) ->
        Backend.tasks b !! i = Some row ->
        Backend.row_status row = TaskStatus.PENDING_ ->
        Backend.cache b !! i = None ->
        Backend.fault o (RedisGet (PStr i)) = None ->
        Backend.fault o (GetResults (PStr i)) = None ->
        lib_dumps L (Backend.results_view i row) = Ok js ->
        let h := serve (ResultsHandler.get (Backend.env o L) req) b in
        resp h = mkResponse 200 [Text js]
        /\ cache_writes h = 0
        /\ Backend.cache (ext h) !! i = None).
Proof.
  split_and!.
  - intros S E req s h k v r Hin. subst h.
    destruct (get_argument req "task_id" None) as [task_id|e] eqn:Hid;
      [|rewrite (get_thrown E req s e Hid) in Hin; set_solver].
    destruct (proj2 (get_classified E req s task_id Hid) k v r Hin)
      as (db & st & js & Hdb & Hst & Hp & _).
    exists task_id, db, st. repeat split; try done.
    intros t ->. rewrite pending_iff in Hp. destruct t; auto; discriminate.
  - intros o L b req Hnf h k v r. subst h.
    destruct (get_argument req "task_id" None) as [task_id|e] eqn:Hid;
      [|rewrite (get_thrown (Backend.env o L) req b e Hid); set_solver].
    pose proof (backend_read_preserves o b (RedisGet (of_arg task_id)) eq_refl)
      as H1.
    pose proof (backend_read_preserves o b (GetResults (of_arg task_id)) eq_refl)
      as H2.
    pose proof (backend_results_inv o b (of_arg task_id)) as Hinv.
    unfold ResultsHandler.get. unfold_monad. rewrite Hid. simpl.
    destruct (Backend.perform o (RedisGet (of_arg task_id)) b)
      as [[c|e] b1]; simpl in *; subst b1; [|set_solver].
    destruct (truthy c); simpl; [destruct c; set_solver|].
    destruct (Backend.perform o (GetResults (of_arg task_id)) b)
      as [[db|e] b2]; simpl in *; subst b2; [|set_solver].
    destruct (lib_dumps L db) as [js|]; simpl; [|set_solver].
    destruct (ResultsHandler.status_of db) as [st|] eqn:Hst; simpl;
      [|set_solver].
    destruct (py_eq_str st TaskStatus.PENDING) eqn:Hp; simpl; [set_solver|].
    destruct (Hinv db b Hnf eq_refl) as (i & row & Hi & Hrow & ->).
    assert (Htask : task_id = Some i).
    { destruct task_id; simpl in Hi; congruence. }
    subst task_id. simpl of_arg in *.
    assert (Hterm : Backend.row_status row = TaskStatus.SUCCESS_
                    \/ Backend.row_status row = TaskStatus.ERROR_).
    { rewrite status_of_view in Hst. injection Hst as <-.
      rewrite pending_iff in Hp.
      destruct (Backend.row_status row); auto; discriminate. }
    destruct (Backend.perform o (RedisSet (PStr i) (PStr js)) b)
      as [[w|e] b3]; simpl; intros Hin; exists i, row;
      split_and!; try done; set_solver.
  - intros o L b req i row js Hid Hrow Hpend Hcache Hf1 Hf2 Hjs h. subst h.
    rewrite (get_pending (Backend.env o L) req b (Some i) Hid PNone b
               (Backend.results_view i row) b js
               (PStr (TaskStatus.value (Backend.row_status row)))).
    + done.
    + simpl of_arg. rewrite perform_redis_get by done. by rewrite Hcache.
    + done.
    + simpl of_arg. by apply perform_get_results_found.
    + done.
    + apply status_of_view.
    + by rewrite Hpend.
Qed.

Lemma reliable_signals_not_found : Backend.signals_not_found Backend.reliable.
Proof. intros id. by eexists. Qed.

Lemma cache_write_only_when_terminal_witness :
  (exists i row,
      get_argument (Examples.results_of "T1") "task_id" None = Done (Some i)
      /\ PStr "T1" = PStr i
      /\ Backend.tasks Examples.done_T1 !! i = Some row
      /\ (GetResults (PStr i), Ok (Backend.results_view i row))
           ∈ trace (Examples.query Backend.reliable "T1" Examples.done_T1)
      /\ (Backend.row_status row = TaskStatus.SUCCESS_
          \/ Backend.row_status row = TaskStatus.ERROR_))
  /\ (resp (Examples.query Backend.reliable "T1" Examples.pending_T1)
        = mkResponse 200
            [Text (Plain.dumps
                     (Backend.results_view "T1"
                        (Backend.mkRow TaskStatus.PENDING_ (PList []))))]
      /\ cache_writes (Examples.query Backend.reliable "T1" Examples.pending_T1) = 0
      /\ Backend.cache (ext (Examples.query Backend.reliable "T1"
                               Examples.pending_T1)) !! "T1" = None).
Proof.
  split.
  - apply (proj1 (proj2 cache_write_only_when_terminal) Backend.reliable
             Plain.library Examples.done_T1 (Examples.results_of "T1")
             reliable_signals_not_found
             (PStr "T1") (PStr Examples.json_T1) (Ok (PBool true))).
    vm_compute. repeat constructor.
  - exact (proj2 (proj2 cache_write_only_when_terminal) Backend.reliable
             Plain.library Examples.pending_T1 (Examples.results_of "T1")
             "T1" (Backend.mkRow TaskStatus.PENDING_ (PList [])) _
             eq_refl eq_refl eq_refl eq_refl eq_refl eq_refl eq_refl).
Defined.

(** C4 (as amended): when the cache read returns a non-empty value, that
    value is the answer, the store is not read, the cache is not written
    and the state is the one the cache read left.  Hence, for an
    identifier whose record has a terminal status and whose serialized
    result is non-empty, the first query reads the store once and
    populates the cache, and every later query is served from the cache
    without a store read. *)
Theorem cache_hit_served :
  (forall (S : Type) (E : Collaborators S) (req : request) (s : S)
          (task_id : option string) (v : string) (s1 : S),
      get_argument req "task_id" None = Done task_id ->
      perform E (RedisGet (of_arg task_id)) s = (Ok (PStr v), s1) ->
      v <> "" ->
      let h := serve (ResultsHandler.get E req) s in
      resp h = mkResponse 200 [Text v]
      /\ store_reads h = 0 /\ cache_writes h = 0 /\ ext h = s1)
  /\ (forall (o : Backend.oracle) (L : Library) (b : Backend.t)
             (req : request) (i : string) (row : Backend.row) (js : string)
             (n : nat),
        get_argument req "task_id" None = Done (Some i) ->
        Backend.tasks b !! i = Some row ->
        TaskStatus.terminal (Backend.row_status row) = true ->
        Backend.cache b !! i = None ->
        lib_dumps L (Backend.results_view i row) = Ok js ->
        js <> "" ->
        Backend.fault o (RedisGet (PStr i)) = None ->
        Backend.fault o (GetResults (PStr i)) = None ->
        Backend.fault o (RedisSet (PStr i) (PStr js)) = None ->
        let m := ResultsHandler.get (Backend.env o L) req in
        let h1 := serve m b in
        resp h1 = mkResponse 200 [Text js]
        /\ store_reads h1 = 1 /\ cache_writes h1 = 1
        /\ Backend.cache (ext h1) !! i = Some js
        /\ Forall (fun h => resp h = mkResponse 200 [Text js]
                            /\ store_reads h = 0 /\ cache_writes h = 0)
             (serve_all (replicate n m) (ext h1))).
Proof.
  split.
  - intros S E req s task_id v s1 Hid Hget Hv h. subst h.
    by rewrite (get_hit E req s task_id Hid v s1).
  - intros o L b req i row js n Hid Hrow Hterm Hcache Hjs Hne Hf1 Hf2 Hf3 m h1.
    assert (Hh1 : h1 =
      mkHstate (Backend.set_cache b (<[i := js]> (Backend.cache b)))
        [(RedisGet (PStr i), Ok PNone);
         (GetResults (PStr i), Ok (Backend.results_view i row));
         (RedisSet (PStr i) (PStr js), Ok (PBool true))]
        ["Save results to Redis cache, task '" ++ i ++ "'"]
        (mkResponse 200 [Text js])).
    { subst h1 m.
      rewrite (get_finished (Backend.env o L) req b (Some i) Hid PNone b
                 (Backend.results_view i row) b js
                 (PStr (TaskStatus.value (Backend.row_status row)))
                 (Ok (PBool true))
                 (Backend.set_cache b (<[i := js]> (Backend.cache b)))).
      - done.
      - simpl of_arg. rewrite perform_redis_get by done. by rewrite Hcache.
      - done.
      - simpl of_arg. by apply perform_get_results_found.
      - done.
      - apply status_of_view.
      - rewrite pending_iff. by rewrite Hterm.
      - simpl of_arg. by apply perform_redis_set. }
    rewrite Hh1. simpl ext. repeat split; try done.
    { simpl. apply lookup_insert_eq. }
    set (b1 := Backend.set_cache b (<[i := js]> (Backend.cache b))).
    assert (Hhit : serve m b1 =
      mkHstate b1 [(RedisGet (PStr i), Ok (PStr js))]
        ["Redis cache is available, task '" ++ i ++ "'"]
        (mkResponse 200 [Text js])).
    { subst m. rewrite (get_hit (Backend.env o L) req b1 (Some i) Hid js b1).
      - done.
      - simpl of_arg. rewrite perform_redis_get by done.
        subst b1. simpl. by rewrite lookup_insert_eq.
      - done. }
    induction n as [|n IH]; simpl; constructor.
    + by rewrite Hhit.
    + rewrite Hhit. simpl ext. apply IH.
Qed.

Lemma cache_hit_served_witness :
  (resp (Examples.query Backend.reliable "T1" Examples.cached_T1)
     = mkResponse 200 [Text Examples.json_T1]
   /\ store_reads (Examples.query Backend.reliable "T1" Examples.cached_T1) = 0
   /\ cache_writes (Examples.query Backend.reliable "T1" Examples.cached_T1) = 0
   /\ ext (Examples.query Backend.reliable "T1" Examples.cached_T1)
      = Examples.cached_T1)
  /\ (resp (Examples.query Backend.reliable "T1" Examples.done_T1)
        = mkResponse 200 [Text Examples.json_T1]
      /\ store_reads (Examples.query Backend.reliable "T1" Examples.done_T1) = 1
      /\ cache_writes (Examples.query Backend.reliable "T1" Examples.done_T1) = 1
      /\ Backend.cache (ext (Examples.query Backend.reliable "T1"
                               Examples.done_T1)) !! "T1"
         = Some Examples.json_T1
      /\ Forall (fun h => resp h = mkResponse 200 [Text Examples.json_T1]
                          /\ store_reads h = 0 /\ cache_writes h = 0)
           (serve_all
              (replicate 3 (ResultsHandler.get (Examples.env Backend.reliable)
                              (Examples.results_of "T1")))
              (ext (Examples.query Backend.reliable "T1" Examples.done_T1)))).
Proof.
  split.
  - apply (proj1 cache_hit_served _ (Examples.env Backend.reliable)
             (Examples.results_of "T1") Examples.cached_T1 (Some "T1")
             Examples.json_T1 Examples.cached_T1).
    + reflexivity.
    + reflexivity.
    + vm_compute. discriminate.
  - apply (proj2 cache_hit_served Backend.reliable Plain.library
             Examples.done_T1 (Examples.results_of "T1") "T1"
             (Backend.mkRow TaskStatus.SUCCESS_ (PList [PInt 2]))
             Examples.json_T1 3); try reflexivity.
    vm_compute. discriminate.
Defined.

(** C4, as stated, fails: the cache holds a value for T1, the empty
    string; the query reads the store and rewrites the cache, and the
    answer is the stored result, not the cached value. *)
Lemma empty_cached_value_is_not_served :
  Backend.cache Examples.blank_T1 !! "T1" = Some ""
  /\ store_reads (Examples.query Backend.reliable "T1" Examples.blank_T1) = 1
  /\ cache_writes (Examples.query Backend.reliable "T1" Examples.blank_T1) = 1
  /\ Backend.cache (ext (Examples.query Backend.reliable "T1" Examples.blank_T1))
       !! "T1" = Some Examples.json_T1
  /\ resp (Examples.query Backend.reliable "T1" Examples.blank_T1)
     <> mkResponse 200 [Text ""].
Proof. vm_compute. repeat split; discriminate. Qed.

(** ** Falsy cached values *)

Section Miss.
Context {S : Type} (E : Collaborators S) (req : request) (s : S).
Context (task_id : option string).
Hypothesis Hid : get_argument req "task_id" None = Done task_id.

(** After a falsy answer of the cache, the next call is the store
    read. *)
Lemma get_miss_reads_store (c : pyval) (s1 : S) (r : pyresult pyval) (s2 : S) :
  perform E (RedisGet (of_arg task_id)) s = (Ok c, s1) ->
  truthy c = false ->
  perform E (GetResults (of_arg task_id)) s1 = (r, s2) ->
  exists rest,
    trace (serve (ResultsHandler.get E req) s) =
      (RedisGet (of_arg task_id), Ok c)
      :: (GetResults (of_arg task_id), r) :: rest.
Proof.
  intros Hget Hc Hres. unfold ResultsHandler.get. unfold_monad.
  rewrite Hid. simpl.
  rewrite Hget. simpl. rewrite Hc. simpl. rewrite Hres.
  destruct r as [db|err]; simpl; [|by eexists].
  destruct (dumps E db); simpl; [|by eexists].
  destruct (ResultsHandler.status_of db) as [st|]; simpl; [|by eexists].
  destruct (py_eq_str st TaskStatus.PENDING); simpl; [by eexists|].
  split_call; by eexists.
Qed.
End Miss.

(** C9: a falsy value read from the cache (the empty string, for one) is
    handled as a miss.  The run has the same response, log, calls and
    final state as the run in which the cache answered [None]; the store
    is read once; and the write to the cache is gated by the status read:
    none when it is PENDING, one otherwise. *)
Theorem falsy_cache_value_is_a_miss {S : Type} (E : Collaborators S)
    (req : request) (s : S) (task_id : option string) (c : pyval) (s1 : S) :
  get_argument req "task_id" None = Done task_id ->
  let id := of_arg task_id in
  perform E (RedisGet id) s = (Ok c, s1) ->
  truthy c = false ->
  let h := serve (ResultsHandler.get E req) s in
  let h' := serve (ResultsHandler.get (falsy_as_miss E) req) s in
  (exists rest, trace h' = (RedisGet id, Ok PNone) :: rest)
  /\ resp h = resp h' /\ logs h = logs h' /\ ext h = ext h' /\ calls h = calls h'
  /\ store_reads h = 1
  /\ (forall db s2 js st,
        perform E (GetResults id) s1 = (Ok db, s2) ->
        dumps E db = Ok js ->
        ResultsHandler.status_of db = Ok st ->
        cache_writes h = if py_eq_str st TaskStatus.PENDING then 0 else 1).
Proof.
  intros Hid id Hget Hc h h'. subst h h'.
  unfold store_reads, cache_writes, count_calls, calls.
  unfold ResultsHandler.get. unfold_monad. rewrite Hid. simpl. fold id.
  rewrite Hget. simpl. rewrite Hc. simpl.
  destruct (perform E (GetResults id) s1) as [[db|err] s2] eqn:Hres; simpl.
  - destruct (dumps E db) as [js|] eqn:Hjs; simpl;
      [|repeat split; eauto; intros; congruence].
    destruct (ResultsHandler.status_of db) as [st|] eqn:Hst; simpl;
      [|repeat split; eauto; intros; congruence].
    destruct (py_eq_str st TaskStatus.PENDING) eqn:Hp; simpl.
    + repeat split; eauto. intros db' s' js' st' Heq Hjs' Hst'.
      assert (st' = st) as -> by congruence. by rewrite Hp.
    + split_call; (repeat split; eauto); intros db' s' js' st' Heq Hjs' Hst';
        (assert (st' = st) as -> by congruence); by rewrite Hp.
  - repeat split; eauto. intros; congruence.
Qed.

Lemma falsy_cache_value_is_a_miss_witness :
  (exists rest,
      trace (serve (ResultsHandler.get
                      (falsy_as_miss (Examples.env Backend.reliable))
                      (Examples.results_of "T1")) Examples.blank_T1)
      = (RedisGet (PStr "T1"), Ok PNone) :: rest)
  /\ store_reads (Examples.query Backend.reliable "T1" Examples.blank_T1) = 1.
Proof.
  pose proof (falsy_cache_value_is_a_miss (Examples.env Backend.reliable)
                (Examples.results_of "T1") Examples.blank_T1 (Some "T1")
                (PStr "") Examples.blank_T1 eq_refl eq_refl eq_refl) as H.
  split; [exact (proj1 H) | exact (proj1 (proj2 (proj2 (proj2 (proj2 (proj2 H))))))].
Defined.

(** ** Task creation *)

Section Post.
Context {S : Type} (E : Collaborators S) (req : request) (s : S).

(** An argument read outside the [try] that does not decode: Tornado
    answers with its 400 page and nothing has been called. *)
Lemma post_thrown (e : exn) :
  get_argument req "type" (Some "queue") = Thrown e ->
  serve (CreateTaskHandler.post E req) s = mkHstate s [] [] (error_page 400).
Proof.
  intros Hmode.
  pose proof (get_argument_thrown req "type" (Some "queue") e Hmode) as He.
  unfold CreateTaskHandler.post. unfold_monad.
  rewrite Hmode. simpl. by rewrite He.
Qed.

(** The calls of a creation request: none, the record creation alone,
    or the record creation followed by the one dispatch of that task. *)
Lemma post_trace_shape :
  let tr := trace (serve (CreateTaskHandler.post E req) s) in
  tr = []
  \/ (exists t r, tr = [(CreateTask t, r)] /\ status t = TaskStatus.PENDING)
  \/ (exists t v c r,
        tr = [(CreateTask t, Ok v); (c, r)]
        /\ status t = TaskStatus.PENDING
        /\ exists cases,
             json_decode E (body req) = Ok cases
             /\ (c = RunTask t cases \/ c = PublishTask t cases)).
Proof.
  destruct (get_argument req "type" (Some "queue")) as [execution_type|e]
    eqn:Hmode; [|rewrite (post_thrown e Hmode); by left].
  unfold CreateTaskHandler.post. unfold_monad. rewrite Hmode. simpl.
  destruct (json_decode E (body req)) as [cases|]; simpl; [|by left].
  destruct (new_task_id E s) as [i s1]; simpl.
  split_call; [|right; left; by eexists _, _].
  repeat case_bool_decide; simpl.
  - split_call; [destruct (json_encode E _)|]; simpl;
      right; right; eexists _, _, _, _; eauto 10.
  - split_call; [destruct (json_encode E _)|]; simpl;
      right; right; eexists _, _, _, _; eauto 10.
  - right; left; by eexists _, _.
Qed.

(** With a mode other than the two accepted ones there is no dispatch,
    and the answer is an error envelope. *)
Lemma post_unsupported (execution_type : option string) :
  get_argument req "type" (Some "queue") = Done execution_type ->
  execution_type <> Some "process" ->
  execution_type <> Some "queue" ->
  let h := serve (CreateTaskHandler.post E req) s in
  status_code (resp h) = 500%Z
  /\ (exists msg, written (resp h) = [ErrorEnvelope msg])
  /\ dispatches h = 0.
Proof.
  intros Hmode Hp Hq. unfold dispatches, count_calls, calls.
  unfold CreateTaskHandler.post. unfold_monad. rewrite Hmode. simpl.
  rewrite (bool_decide_eq_false_2 _ Hp), (bool_decide_eq_false_2 _ Hq).
  destruct (json_decode E (body req)) as [cases|]; simpl; [|eauto].
  destruct (new_task_id E s) as [i s1]; simpl.
  split_call; eauto.
Qed.

Lemma post_unsupported_message (execution_type : option string)
    (cases : pyval) (i : string) (s1 : S) (v : pyval) (s2 : S) :
  get_argument req "type" (Some "queue") = Done execution_type ->
  execution_type <> Some "process" ->
  execution_type <> Some "queue" ->
  json_decode E (body req) = Ok cases ->
  new_task_id E s = (i, s1) ->
  perform E (CreateTask (mkTask i TaskStatus.PENDING)) s1 = (Ok v, s2) ->
  serve (CreateTaskHandler.post E req) s =
    mkHstate s2 [(CreateTask (mkTask i TaskStatus.PENDING), Ok v)] []
      (mkResponse 500
         [ErrorEnvelope
            ("Unsupported value for parameter 'type': "
             ++ str_arg execution_type
             ++ ". Supported values: 'queue', 'process'")]).
Proof.
  intros Hmode Hp Hq Hdec Hid Hcreate.
  unfold CreateTaskHandler.post. unfold_monad. rewrite Hmode. simpl.
  rewrite (bool_decide_eq_false_2 _ Hp), (bool_decide_eq_false_2 _ Hq).
  rewrite Hdec. simpl. rewrite Hid. simpl. rewrite Hcreate. simpl.
  done.
Qed.
End Post.

(** C5 (as amended): a creation request whose mode argument is read
    (decoded, with control characters replaced and white space stripped)
    as a value that is neither 'queue' nor 'process' is always answered
    by a 500 error envelope and never dispatched (no publish, no run).
    When its body decodes and the record creation returns, the message of
    the envelope names the value read and the two accepted values, the
    record creation is the only call made, and in the store the new
    record is left PENDING.  A mode argument that is not valid UTF-8 is
    no accepted value either, but it is not answered by an envelope:
    reading it raises before the [try], the answer is Tornado's 400 page,
    no collaborator is called and no record is created. *)
Theorem unsupported_mode_outcome :
  (forall (S : Type) (E : Collaborators S) (req : request) (s : S)
          (execution_type : option string),
      get_argument req "type" (Some "queue") = Done execution_type ->
      execution_type <> Some "process" ->
      execution_type <> Some "queue" ->
      let h := serve (CreateTaskHandler.post E req) s in
      status_code (resp h) = 500%Z
      /\ (exists msg, written (resp h) = [ErrorEnvelope msg])
      /\ dispatches h = 0
      /\ forall cases i s1 v s2,
           json_decode E (body req) = Ok cases ->
           new_task_id E s = (i, s1) ->
           perform E (CreateTask (mkTask i TaskStatus.PENDING)) s1 = (Ok v, s2) ->
           resp h = mkResponse 500
                      [ErrorEnvelope
                         ("Unsupported value for parameter 'type': "
                          ++ str_arg execution_type
                          ++ ". Supported values: 'queue', 'process'")]
           /\ trace h = [(CreateTask (mkTask i TaskStatus.PENDING), Ok v)]
           /\ ext h = s2)
  /\ (forall (o : Backend.oracle) (L : Library) (b : Backend.t)
             (req : request) (execution_type : option string) (cases : pyval),
        let i := fst (Backend.new_task_id b) in
        get_argument req "type" (Some "queue") = Done execution_type ->
        execution_type <> Some "process" ->
        execution_type <> Some "queue" ->
        lib_json_decode L (body req) = Ok cases ->
        Backend.fault o (CreateTask (mkTask i TaskStatus.PENDING)) = None ->
        Backend.tasks b !! i = None ->
        let h := serve (CreateTaskHandler.post (Backend.env o L) req) b in
        Backend.tasks (ext h) !! i
          = Some (Backend.mkRow TaskStatus.PENDING_ (PList []))
        /\ Backend.queue (ext h) = Backend.queue b)
  /\ (forall (S : Type) (E : Collaborators S) (req : request) (s : S),
        decodes req "type" = false ->
        let h := serve (CreateTaskHandler.post E req) s in
        resp h = error_page 400 /\ trace h = [] /\ ext h = s).
Proof.
  split_and!.
  - intros S E req s execution_type Hmode Hp Hq h.
    destruct (post_unsupported E req s execution_type Hmode Hp Hq)
      as (H1 & H2 & H3).
    repeat split; try done.
    all: subst h;
      rewrite (post_unsupported_message E req s execution_type cases i s1 v s2);
      done.
  - intros o L b req execution_type cases i Hmode Hp Hq Hdec Hf Hfresh h.
    subst h.
    rewrite (post_unsupported_message (Backend.env o L) req b execution_type
               cases i (snd (Backend.new_task_id b)) PNone
               (Backend.set_tasks (snd (Backend.new_task_id b))
                  (<[i := Backend.mkRow TaskStatus.PENDING_ (PList [])]>
                     (Backend.tasks b)))); try done.
    + simpl. split; [apply lookup_insert_eq|done].
    + simpl. unfold Backend.perform. rewrite Hf. simpl.
      fold i. by rewrite Hfresh.
  - intros S E req s Hdec h. subst h.
    pose proof (get_argument_spec req "type" (Some "queue")) as Hspec.
    destruct (get_argument req "type" (Some "queue")) as [a|e] eqn:Hmode;
      [congruence|].
    by rewrite (post_thrown E req s e Hmode).
Qed.

Lemma unsupported_mode_outcome_witness :
  (status_code (resp (Examples.submit Backend.reliable "batch" "{}"
                        Examples.done_T1)) = 500%Z
   /\ resp (Examples.submit Backend.reliable "batch" "{}" Examples.done_T1)
      = mkResponse 500
          [ErrorEnvelope
             ("Unsupported value for parameter 'type': batch"
              ++ ". Supported values: 'queue', 'process'")]
   /\ dispatches (Examples.submit Backend.reliable "batch" "{}"
                    Examples.done_T1) = 0)
  /\ Backend.tasks (ext (Examples.submit Backend.reliable "batch" "{}"
                           Examples.done_T1)) !! "T2"
     = Some (Backend.mkRow TaskStatus.PENDING_ (PList []))
  /\ (resp (Examples.submit Backend.reliable Examples.invalid "{}"
              Examples.done_T1) = error_page 400
      /\ trace (Examples.submit Backend.reliable Examples.invalid "{}"
                  Examples.done_T1) = []
      /\ ext (Examples.submit Backend.reliable Examples.invalid "{}"
                Examples.done_T1) = Examples.done_T1).
Proof.
  assert (Hp : Some "batch" <> Some "process") by discriminate.
  assert (Hq : Some "batch" <> Some "queue") by discriminate.
  split; [|split].
  - destruct (proj1 unsupported_mode_outcome _ (Examples.env Backend.reliable)
                (Examples.create "batch" "{}") Examples.done_T1 (Some "batch")
                eq_refl Hp Hq)
      as (H1 & _ & H3 & H4).
    split; [exact H1|split; [|exact H3]].
    exact (proj1 (H4 (PDict []) "T2" _ PNone _ eq_refl eq_refl eq_refl)).
  - exact (proj1 (proj1 (proj2 unsupported_mode_outcome) Backend.reliable
                    Plain.library Examples.done_T1
                    (Examples.create "batch" "{}") (Some "batch") (PDict [])
                    eq_refl Hp Hq eq_refl eq_refl eq_refl)).
  - exact (proj2 (proj2 unsupported_mode_outcome) _
             (Examples.env Backend.reliable)
             (Examples.create Examples.invalid "{}") Examples.done_T1
             eq_refl).
Defined.

(** C5, as stated, fails.  The mode is 'batch' and the body does not
    decode: the call fails with the message of the decoding error, which
    names neither the received mode nor the accepted ones.  The mode is
    the byte FF and the body decodes: the answer is the 400 page, which
    carries no message of the handler at all. *)
Lemma unsupported_mode_with_undecodable_body :
  get_argument (Examples.create "batch" "not json") "type" (Some "queue")
    = Done (Some "batch")
  /\ resp (Examples.submit Backend.reliable "batch" "not json" Backend.empty)
     = mkResponse 500
         [ErrorEnvelope ("Unexpected error at task creating: "
                         ++ "Expecting value: line 1 column 1 (char 0)")]
  /\ resp (Examples.submit Backend.reliable "batch" "not json" Backend.empty)
     <> mkResponse 500
          [ErrorEnvelope (CreateTaskHandler.unsupported_msg (Some "batch"))]
  /\ Examples.invalid <> "queue" /\ Examples.invalid <> "process"
  /\ resp (Examples.submit Backend.reliable Examples.invalid "{}" Backend.empty)
     = error_page 400
  /\ existsb is_error_envelope
       (written (resp (Examples.submit Backend.reliable Examples.invalid "{}"
                         Backend.empty))) = false.
Proof. vm_compute. repeat split; discriminate. Qed.

(** C6: in every run of a creation request, a dispatch (run or publish)
    is the second call, directly preceded by the record creation of the
    same task, with status PENDING, having returned.  On the
    specification's store, once the creation has answered 200 the store
    holds a record for the new identifier (the initial PENDING record in
    'queue' mode), and the store read of a result query served next, for
    that identifier, returns this record. *)
Theorem record_created_before_dispatch :
  (forall (S : Type) (E : Collaborators S) (req : request) (s : S)
          (pre post : list (call * pyresult pyval)) (c : call)
          (r : pyresult pyval),
      trace (serve (CreateTaskHandler.post E req) s)
        = (pre ++ (c, r) :: post)%list ->
      is_dispatch c = true ->
      exists t v cases,
        pre = [(CreateTask t, Ok v)] /\ post = []
        /\ status t = TaskStatus.PENDING
        /\ (c = RunTask t cases \/ c = PublishTask t cases))
  /\ (forall (o : Backend.oracle) (L : Library) (b : Backend.t) (req : request),
        let i := fst (Backend.new_task_id b) in
        let h := serve (CreateTaskHandler.post (Backend.env o L) req) b in
        status_code (resp h) = 200%Z ->
        exists row enc,
          lib_json_encode L (as_json (mkTask i TaskStatus.PENDING)) = Ok enc
          /\ written (resp h) = [Text enc]
          /\ Backend.tasks b !! i = None
          /\ Backend.tasks (ext h) !! i = Some row
          /\ (get_argument req "type" (Some "queue") = Done (Some "queue") ->
                row = Backend.mkRow TaskStatus.PENDING_ (PList []))
          /\ forall (o' : Backend.oracle) (req' : request),
               get_argument req' "task_id" None = Done (Some i) ->
               Backend.cache b !! i = None ->
               Backend.fault o' (RedisGet (PStr i)) = None ->
               Backend.fault o' (GetResults (PStr i)) = None ->
               exists rest,
                 trace (serve (ResultsHandler.get (Backend.env o' L) req') (ext h))
                 = (RedisGet (PStr i), Ok PNone)
                   :: (GetResults (PStr i), Ok (Backend.results_view i row))
                   :: rest).
Proof.
  split.
  - intros S E req s pre post c r Htr Hd.
    destruct (post_trace_shape E req s)
      as [H|[(t & r' & H & Hst)|(t & v & c' & r' & H & Hst & cases & _ & Hc)]];
      rewrite H in Htr.
    + by destruct pre.
    + destruct pre as [|? [|? ?]]; simplify_eq/=.
    + destruct pre as [|? [|? [|? ?]]]; simplify_eq/=.
      by exists t, v, cases.
  - intros o L b req i h. subst h.
    assert (Hquery : forall b' row,
      Backend.cache b' = Backend.cache b ->
      Backend.tasks b' !! i = Some row ->
      forall (o' : Backend.oracle) (req' : request),
        get_argument req' "task_id" None = Done (Some i) ->
        Backend.cache b !! i = None ->
        Backend.fault o' (RedisGet (PStr i)) = None ->
        Backend.fault o' (GetResults (PStr i)) = None ->
        exists rest,
          trace (serve (ResultsHandler.get (Backend.env o' L) req') b')
          = (RedisGet (PStr i), Ok PNone)
            :: (GetResults (PStr i), Ok (Backend.results_view i row)) :: rest).
    { intros b' row Hcache Hrow o' req' Hid Hmiss Hf1 Hf2.
      apply (get_miss_reads_store (Backend.env o' L) req' b' (Some i) Hid
               PNone b' (Ok (Backend.results_view i row)) b').
      - simpl of_arg. rewrite perform_redis_get by done.
        by rewrite Hcache, Hmiss.
      - done.
      - simpl of_arg. by apply perform_get_results_found. }
    destruct (get_argument req "type" (Some "queue")) as [execution_type|e]
      eqn:Hmode;
      [|rewrite (post_thrown (Backend.env o L) req b e Hmode); simpl;
        intros H200; lia].
    remember (serve (CreateTaskHandler.post (Backend.env o L) req) b) as h eqn:Hh.
    intros H200. revert Hh.
    unfold CreateTaskHandler.post. unfold_monad. rewrite Hmode. simpl.
    destruct (lib_json_decode L (body req)) as [cases|]; simpl;
      [|intros ->; simpl in H200; lia].
    unfold Backend.perform.
    destruct (Backend.fault o (CreateTask _)); simpl;
      [intros ->; simpl in H200; lia|].
    destruct (Backend.tasks b !! _) eqn:Hfresh; simpl;
      [intros ->; simpl in H200; lia|].
    repeat case_bool_decide; simpl; [| |intros ->; simpl in H200; lia].
    + destruct (Backend.fault o (RunTask _ _)); simpl;
        [intros ->; simpl in H200; lia|].
      destruct (lib_json_encode L _) as [enc|] eqn:Henc; simpl;
        [|intros ->; simpl in H200; lia].
      intros ->. simpl.
      destruct (Backend.executor o cases) as [res|err]; simpl;
        eexists _, enc;
        (split_and!;
         [done|done|done|apply lookup_insert_eq|intros; congruence|]);
        intros o' req' Hid Hmiss Hf1 Hf2;
        (apply Hquery; [done|apply lookup_insert_eq|done..]).
    + destruct (Backend.fault o (PublishTask _ _)); simpl;
        [intros ->; simpl in H200; lia|].
      destruct (lib_json_encode L _) as [enc|] eqn:Henc; simpl;
        [|intros ->; simpl in H200; lia].
      intros ->. simpl.
      eexists _, enc.
      split_and!; [done|done|done|apply lookup_insert_eq|done|].
      intros o' req' Hid Hmiss Hf1 Hf2.
      apply Hquery; [done|apply lookup_insert_eq|done..].
Qed.

Lemma record_created_before_dispatch_witness :
  (exists t v cases,
      [(CreateTask (mkTask "T1" TaskStatus.PENDING), Ok PNone)]
        = [(CreateTask t, Ok v)]
      /\ @nil (call * pyresult pyval) = []
      /\ status t = TaskStatus.PENDING
      /\ (PublishTask (mkTask "T1" TaskStatus.PENDING) (PDict []) = RunTask t cases
          \/ PublishTask (mkTask "T1" TaskStatus.PENDING) (PDict [])
             = PublishTask t cases))
  /\ (exists row,
        Backend.tasks (ext (Examples.submit Backend.reliable "queue" "{}"
                              Backend.empty)) !! "T1" = Some row
        /\ row = Backend.mkRow TaskStatus.PENDING_ (PList [])
        /\ exists rest,
             trace (Examples.query Backend.reliable "T1"
                      (ext (Examples.submit Backend.reliable "queue" "{}"
                              Backend.empty)))
             = (RedisGet (PStr "T1"), Ok PNone)
               :: (GetResults (PStr "T1"), Ok (Backend.results_view "T1" row))
               :: rest).
Proof.
  split.
  - apply (proj1 record_created_before_dispatch _
             (Examples.env Backend.reliable) (Examples.create "queue" "{}")
             Backend.empty
             [(CreateTask (mkTask "T1" TaskStatus.PENDING), Ok PNone)] []
             (PublishTask (mkTask "T1" TaskStatus.PENDING) (PDict []))
             (Ok PNone)); reflexivity.
  - destruct (proj2 record_created_before_dispatch Backend.reliable
                Plain.library Backend.empty (Examples.create "queue" "{}")
                eq_refl)
      as (row & enc & _ & _ & _ & Hrow & Hq & Hfind).
    exists row. split; [exact Hrow|]. split; [exact (Hq eq_refl)|].
    exact (Hfind Backend.reliable (Examples.results_of "T1")
             eq_refl eq_refl eq_refl eq_refl).
Defined.

(** ** Task listing *)

Section Listing.
Context {S : Type} (E : Collaborators S) (req : request) (s : S).

(** One of the two arguments of a listing does not decode: both are read
    before the [try], so Tornado answers with its 400 page and nothing
    has been called. *)
Lemma list_thrown :
  decodes req "task_id" && decodes req "limit" = false ->
  serve (ListTaskHandler.get E req) s = mkHstate s [] [] (error_page 400).
Proof.
  intros Hdec.
  pose proof (get_argument_spec req "task_id" None) as Hid.
  pose proof (get_argument_spec req "limit" None) as Hlimit.
  unfold ListTaskHandler.get. unfold_monad.
  destruct (get_argument req "task_id" None) as [task_id|e]; simpl.
  - destruct (get_argument req "limit" None) as [limit|e]; simpl.
    + rewrite Hid, Hlimit in Hdec. discriminate.
    + by rewrite (proj2 Hlimit).
  - by rewrite (proj2 Hid).
Qed.
End Listing.

(** C10 (as amended): when both arguments decode, the task identifier
    read is absent or empty and the limit read is non-empty and rejected
    by [int], the listing fails with the 500 error envelope, before the
    store is read.  When both decode and the task identifier read is
    non-empty, the value of the limit has no influence on the run.  When
    one of the two is not valid UTF-8, the task identifier or the limit,
    with or without the other, reading it raises before the [try]: the
    answer is Tornado's 400 page and the store is not read. *)
Theorem unparseable_limit_outcome :
  (forall (S : Type) (E : Collaborators S) (req : request) (s : S)
          (task_id : option string) (l err : string),
      get_argument req "task_id" None = Done task_id ->
      truthy (of_arg task_id) = false ->
      get_argument req "limit" None = Done (Some l) ->
      l <> "" ->
      int E l = Raise err ->
      let h := serve (ListTaskHandler.get E req) s in
      resp h = mkResponse 500
                 [ErrorEnvelope ("Unexpected error at tasks listing: " ++ err)]
      /\ trace h = []
      /\ ext h = s)
  /\ (forall (S : Type) (E : Collaborators S) (req req' : request) (s : S)
             (t : string),
        get_argument req "task_id" None = Done (Some t) ->
        t <> "" ->
        get_argument req' "task_id" None = Done (Some t) ->
        decodes req "limit" = true ->
        decodes req' "limit" = true ->
        serve (ListTaskHandler.get E req) s
        = serve (ListTaskHandler.get E req') s)
  /\ (forall (S : Type) (E : Collaborators S) (req : request) (s : S),
        decodes req "task_id" && decodes req "limit" = false ->
        let h := serve (ListTaskHandler.get E req) s in
        resp h = error_page 400 /\ trace h = [] /\ ext h = s).
Proof.
  split_and!.
  - intros S E req s task_id l err Hid Hfalsy Hl Hne Hint h. subst h.
    unfold ListTaskHandler.get. unfold_monad. rewrite Hid, Hl. simpl.
    rewrite Hfalsy. simpl.
    pose proof (truthy_str l Hne) as Ht. simpl in Ht. rewrite Ht. simpl.
    by rewrite Hint.
  - intros S E req req' s t Hid Hne Hid' Hdec Hdec'.
    pose proof (get_argument_spec req "limit" None) as Hl.
    pose proof (get_argument_spec req' "limit" None) as Hl'.
    unfold ListTaskHandler.get. unfold_monad. rewrite Hid, Hid'. simpl.
    destruct (get_argument req "limit" None) as [l|e];
      [|destruct Hl; congruence].
    destruct (get_argument req' "limit" None) as [l'|e];
      [|destruct Hl'; congruence].
    simpl. pose proof (truthy_str t Hne) as Ht. simpl in Ht. by rewrite Ht.
  - intros S E req s Hdec h. subst h. by rewrite list_thrown.
Qed.

Lemma unparseable_limit_outcome_witness :
  (resp (Examples.list_tasks Backend.reliable [("limit", "abc")] Examples.done_T1)
     = mkResponse 500
         [ErrorEnvelope ("Unexpected error at tasks listing: "
                         ++ "invalid literal for int() with base 10: 'abc'")]
   /\ trace (Examples.list_tasks Backend.reliable [("limit", "abc")]
               Examples.done_T1) = []
   /\ ext (Examples.list_tasks Backend.reliable [("limit", "abc")]
             Examples.done_T1) = Examples.done_T1)
  /\ Examples.list_tasks Backend.reliable [("task_id", "T1"); ("limit", "abc")]
       Examples.done_T1
     = Examples.list_tasks Backend.reliable [("task_id", "T1")] Examples.done_T1
  /\ (resp (Examples.list_tasks Backend.reliable
              [("task_id", "T1"); ("limit", Examples.invalid)] Examples.done_T1)
        = error_page 400
      /\ trace (Examples.list_tasks Backend.reliable
                  [("task_id", "T1"); ("limit", Examples.invalid)]
                  Examples.done_T1) = []
      /\ ext (Examples.list_tasks Backend.reliable
                [("task_id", "T1"); ("limit", Examples.invalid)]
                Examples.done_T1) = Examples.done_T1).
Proof.
  split; [|split].
  - apply (proj1 unparseable_limit_outcome _ (Examples.env Backend.reliable)
             (Examples.listing [("limit", "abc")]) Examples.done_T1 None "abc"
             "invalid literal for int() with base 10: 'abc'");
      [reflexivity|reflexivity|reflexivity|discriminate|reflexivity].
  - apply (proj1 (proj2 unparseable_limit_outcome) _
             (Examples.env Backend.reliable)
             (Examples.listing [("task_id", "T1"); ("limit", "abc")])
             (Examples.listing [("task_id", "T1")]) Examples.done_T1 "T1");
      [reflexivity|discriminate|reflexivity|reflexivity|reflexivity].
  - exact (proj2 (proj2 unparseable_limit_outcome) _
             (Examples.env Backend.reliable)
             (Examples.listing [("task_id", "T1"); ("limit", Examples.invalid)])
             Examples.done_T1 eq_refl).
Defined.

(** C10, as stated, fails.  The empty string is a limit that [int]
    rejects, yet a listing request carrying it, and no task identifier,
    is answered 200 with the unlimited listing; with the empty string
    supplied as task identifier the limit is not ignored; and with the
    task identifier T1 supplied, a limit that is the byte FF is not
    ignored either: the answer is the 400 page, where the same request
    with the limit 1 is answered 200. *)
Lemma empty_limit_lists_tasks :
  Plain.int "" = Raise "invalid literal for int() with base 10: ''"
  /\ get_argument (Examples.listing [("limit", "")]) "limit" None
     = Done (Some "")
  /\ get_argument (Examples.listing [("limit", "")]) "task_id" None = Done None
  /\ resp (Examples.list_tasks Backend.reliable [("limit", "")] Examples.done_T1)
     = mkResponse 200
         [Text (Plain.dumps
                  (PList [Backend.task_view "T1"
                            (Backend.mkRow TaskStatus.SUCCESS_ (PList [PInt 2]))]))]
  /\ status_code
       (resp (Examples.list_tasks Backend.reliable
                [("task_id", ""); ("limit", "abc")] Examples.done_T1))
     <> status_code
          (resp (Examples.list_tasks Backend.reliable
                   [("task_id", ""); ("limit", "1")] Examples.done_T1))
  /\ status_code
       (resp (Examples.list_tasks Backend.reliable
                [("task_id", "T1"); ("limit", Examples.invalid)]
                Examples.done_T1)) = 400%Z
  /\ status_code
       (resp (Examples.list_tasks Backend.reliable
                [("task_id", "T1"); ("limit", "1")] Examples.done_T1)) = 200%Z.
Proof. vm_compute. repeat split; discriminate. Qed.

(** ** Queue polling *)

(** C7: the queue's pending events are drained on a fixed periodic timer
    whose interval is of the order of one second.  The timer of the main
    block does not have that interval: its [callback_time] is the literal
    1.000, which Tornado reads as milliseconds, so the drain is due after
    every millisecond, a thousand times within one second, and the
    interval is outside any range of the order of a second. *)
Theorem polling_interval_is_one_millisecond :
  PeriodicCallback.callback_time polling = 1%Z
  /\ (forall window : Z, PeriodicCallback.due polling window = window)
  /\ PeriodicCallback.due polling 1000 = 1000%Z
  /\ ~ PeriodicCallback.about_one_second polling.
Proof.
  unfold PeriodicCallback.due, PeriodicCallback.about_one_second, polling.
  simpl. split_and!; [done|apply Z.div_1_r|done|lia].
Qed.

(** * Further properties of the handlers *)

(** ** Creation: dispatch *)

Section Dispatch.
Context {S : Type} (E : Collaborators S) (req : request) (s : S).
Context (execution_type : option string).
Hypothesis Hmode : get_argument req "type" (Some "queue") = Done execution_type.

(** The run of a creation request whose body decodes, whose record is
    created and whose mode is one of the two accepted ones. *)
Lemma post_dispatched (cases : pyval) (i : string) (s1 : S) (v : pyval)
    (s2 : S) (c : call) (rd : pyresult pyval) (s3 : S) :
  json_decode E (body req) = Ok cases ->
  new_task_id E s = (i, s1) ->
  perform E (CreateTask (mkTask i TaskStatus.PENDING)) s1 = (Ok v, s2) ->
  dispatch_call execution_type (mkTask i TaskStatus.PENDING) cases = Some c ->
  perform E c s2 = (rd, s3) ->
  serve (CreateTaskHandler.post E req) s =
    mkHstate s3 [(CreateTask (mkTask i TaskStatus.PENDING), Ok v); (c, rd)] []
      (match rd with
       | Raise err => create_failure err
       | Ok _ =>
           match json_encode E (as_json (mkTask i TaskStatus.PENDING)) with
           | Ok enc => mkResponse 200 [Text enc]
           | Raise err => create_failure err
           end
       end).
Proof.
  intros Hdec Hid Hcreate Hc Hd. unfold dispatch_call in Hc.
  unfold CreateTaskHandler.post. unfold_monad. rewrite Hmode. simpl.
  rewrite Hdec. simpl. rewrite Hid. simpl. rewrite Hcreate. simpl.
  repeat case_bool_decide; simplify_eq; simpl; rewrite Hd;
    destruct rd; simpl; try done;
    by destruct (json_encode E _).
Qed.

(** The record creation raises: no dispatch. *)
Lemma post_create_raises (cases : pyval) (i : string) (s1 : S) (err : string)
    (s2 : S) :
  json_decode E (body req) = Ok cases ->
  new_task_id E s = (i, s1) ->
  perform E (CreateTask (mkTask i TaskStatus.PENDING)) s1 = (Raise err, s2) ->
  serve (CreateTaskHandler.post E req) s =
    mkHstate s2 [(CreateTask (mkTask i TaskStatus.PENDING), Raise err)] []
      (create_failure err).
Proof.
  intros Hdec Hid Hcreate.
  unfold CreateTaskHandler.post. unfold_monad. rewrite Hmode. simpl.
  rewrite Hdec. simpl. rewrite Hid. simpl. by rewrite Hcreate.
Qed.

(** The body does not decode: no call. *)
Lemma post_body_raises (err : string) :
  json_decode E (body req) = Raise err ->
  serve (CreateTaskHandler.post E req) s
  = mkHstate s [] [] (create_failure err).
Proof.
  intros Hdec.
  unfold CreateTaskHandler.post. unfold_monad. rewrite Hmode. simpl.
  by rewrite Hdec.
Qed.
End Dispatch.

(** X1: [CreateTaskQueueHandler.post] is [CreateTaskHandler.post] in
    'queue' mode: on a request with the same body whose mode is 'queue'
    (given or defaulted) the two handlers make the same run, whatever
    the collaborators do; the queue handler does not look at the mode of
    its own request. *)
Theorem queue_handler_is_queue_mode {S : Type} (E : Collaborators S)
    (req req' : request) (h : hstate S) :
  body req = body req' ->
  get_argument req' "type" (Some "queue") = Done (Some "queue") ->
  CreateTaskQueueHandler.post E req h = CreateTaskHandler.post E req' h.
Proof.
  intros Hbody Hmode.
  unfold CreateTaskQueueHandler.post, CreateTaskHandler.post.
  unfold_monad. rewrite Hmode, Hbody. simpl.
  destruct (json_decode E (body req')) as [cases|]; simpl; [|done].
  destruct (new_task_id E (ext h)) as [i s1]; simpl.
  split_call; [|done].
  split_call; [|done].
  by destruct (json_encode E _).
Qed.

Lemma queue_handler_is_queue_mode_witness :
  serve (CreateTaskQueueHandler.post (Examples.env Backend.reliable)
           (Examples.create "process" "{}")) Backend.empty
  = serve (CreateTaskHandler.post (Examples.env Backend.reliable)
             (Examples.bare "{}")) Backend.empty.
Proof.
  unfold serve.
  rewrite (queue_handler_is_queue_mode (Examples.env Backend.reliable)
             (Examples.create "process" "{}") (Examples.bare "{}")
             (start Backend.empty) eq_refl eq_refl).
  reflexivity.
Defined.

(** X2: every dispatch a creation request makes is the one its mode
    selects: a synchronous run only for 'process', a publish only for
    'queue' (given or defaulted).  It carries the task allocated for the
    request, with status PENDING, and the decoded body, unchanged. *)
Theorem dispatch_is_selected_by_mode {S : Type} (E : Collaborators S)
    (req : request) (s : S) (c : call) (r : pyresult pyval) :
  (c, r) ∈ trace (serve (CreateTaskHandler.post E req) s) ->
  is_dispatch c = true ->
  exists execution_type cases,
    get_argument req "type" (Some "queue") = Done execution_type
    /\ json_decode E (body req) = Ok cases
    /\ dispatch_call execution_type
         (mkTask (fst (new_task_id E s)) TaskStatus.PENDING) cases = Some c.
Proof.
  destruct (get_argument req "type" (Some "queue")) as [execution_type|e]
    eqn:Hmode; [|rewrite (post_thrown E req s e Hmode); set_solver].
  unfold CreateTaskHandler.post, dispatch_call. unfold_monad.
  rewrite Hmode. simpl.
  destruct (json_decode E (body req)) as [cases|]; simpl; [|set_solver].
  destruct (new_task_id E s) as [i s1]; simpl.
  split_call; [|intros Hin Hd; apply list_elem_of_singleton in Hin;
                 by simplify_eq].
  repeat case_bool_decide; simpl.
  - split_call; [destruct (json_encode E _)|]; simpl; intros Hin Hd;
      exists execution_type, cases; (split; [done|]); (split; [done|]);
      apply elem_of_cons in Hin as [Hin|Hin]; simplify_eq/=;
      apply list_elem_of_singleton in Hin; by simplify_eq.
  - split_call; [destruct (json_encode E _)|]; simpl; intros Hin Hd;
      exists execution_type, cases; (split; [done|]); (split; [done|]);
      apply elem_of_cons in Hin as [Hin|Hin]; simplify_eq/=;
      apply list_elem_of_singleton in Hin; by simplify_eq.
  - intros Hin Hd. apply list_elem_of_singleton in Hin. by simplify_eq.
Qed.

Lemma dispatch_is_selected_by_mode_witness :
  exists execution_type cases,
    get_argument (Examples.create "process" "{}") "type" (Some "queue")
      = Done execution_type
    /\ Plain.json_decode "{}" = Ok cases
    /\ dispatch_call execution_type (mkTask "T1" TaskStatus.PENDING) cases
       = Some (RunTask (mkTask "T1" TaskStatus.PENDING) (PDict [])).
Proof.
  apply (dispatch_is_selected_by_mode (Examples.env Backend.reliable)
           (Examples.create "process" "{}") Backend.empty
           (RunTask (mkTask "T1" TaskStatus.PENDING) (PDict [])) (Ok PNone)).
  - vm_compute. repeat constructor.
  - reflexivity.
Defined.

(** X3: a dispatch that fails leaves the record behind.  On the
    specification's store, when the record creation succeeds and the
    selected dispatch call then raises, the caller gets the 500 creation
    error carrying the message of the exception (and no identifier), the
    queue is unchanged, and the store keeps the new record, PENDING:
    nothing is rolled back. *)
Theorem failed_dispatch_leaves_pending_record (o : Backend.oracle)
    (L : Library) (b : Backend.t) (req : request)
    (execution_type : option string) (cases : pyval) (c : call)
    (err : string) :
  let i := fst (Backend.new_task_id b) in
  let task := mkTask i TaskStatus.PENDING in
  get_argument req "type" (Some "queue") = Done execution_type ->
  lib_json_decode L (body req) = Ok cases ->
  Backend.fault o (CreateTask task) = None ->
  Backend.tasks b !! i = None ->
  dispatch_call execution_type task cases = Some c ->
  Backend.fault o c = Some err ->
  let h := serve (CreateTaskHandler.post (Backend.env o L) req) b in
  resp h = create_failure err
  /\ trace h = [(CreateTask task, Ok PNone); (c, Raise err)]
  /\ Backend.tasks (ext h) !! i
     = Some (Backend.mkRow TaskStatus.PENDING_ (PList []))
  /\ Backend.queue (ext h) = Backend.queue b.
Proof.
  intros i task Hmode Hdec Hf Hfresh Hc Hfd h. subst h.
  set (b1 := snd (Backend.new_task_id b)).
  set (b2 := Backend.set_tasks b1
               (<[i := Backend.mkRow TaskStatus.PENDING_ (PList [])]>
                  (Backend.tasks b))).
  rewrite (post_dispatched (Backend.env o L) req b execution_type Hmode
             cases i b1 PNone b2 c (Raise err) b2); try done.
  - simpl. split_and!; try done. apply lookup_insert_eq.
  - simpl. unfold Backend.perform. fold task. rewrite Hf. simpl.
    fold i. by rewrite Hfresh.
  - simpl. unfold Backend.perform. by rewrite Hfd.
Qed.

Lemma failed_dispatch_leaves_pending_record_witness :
  resp (Examples.submit (Backend.failing is_dispatch "AMQPConnectionError")
          "queue" "{}" Backend.empty)
    = create_failure "AMQPConnectionError"
  /\ Backend.tasks
       (ext (Examples.submit (Backend.failing is_dispatch "AMQPConnectionError")
               "queue" "{}" Backend.empty)) !! "T1"
     = Some (Backend.mkRow TaskStatus.PENDING_ (PList [])).
Proof.
  destruct (failed_dispatch_leaves_pending_record
              (Backend.failing is_dispatch "AMQPConnectionError")
              Plain.library Backend.empty (Examples.create "queue" "{}")
              (Some "queue") (PDict [])
              (PublishTask (mkTask "T1" TaskStatus.PENDING) (PDict []))
              "AMQPConnectionError"
              eq_refl eq_refl eq_refl eq_refl eq_refl eq_refl)
    as (H1 & _ & H3 & _).
  split; [exact H1|exact H3].
Defined.

(** X4: the response of a creation is built after the dispatch.  When the
    record is created and the dispatch returns but the serialization of
    the task raises, the caller gets the 500 creation error although the
    work has been dispatched: the dispatch is in the trace, returned, and
    the state is the one it left. *)
Theorem encode_failure_after_dispatch {S : Type} (E : Collaborators S)
    (req : request) (s : S) (execution_type : option string) (cases : pyval)
    (i : string) (s1 : S) (v : pyval)
    (s2 : S) (c : call) (v' : pyval) (s3 : S) (err : string) :
  get_argument req "type" (Some "queue") = Done execution_type ->
  json_decode E (body req) = Ok cases ->
  new_task_id E s = (i, s1) ->
  perform E (CreateTask (mkTask i TaskStatus.PENDING)) s1 = (Ok v, s2) ->
  dispatch_call execution_type (mkTask i TaskStatus.PENDING) cases = Some c ->
  perform E c s2 = (Ok v', s3) ->
  json_encode E (as_json (mkTask i TaskStatus.PENDING)) = Raise err ->
  let h := serve (CreateTaskHandler.post E req) s in
  resp h = create_failure err
  /\ trace h = [(CreateTask (mkTask i TaskStatus.PENDING), Ok v); (c, Ok v')]
  /\ ext h = s3.
Proof.
  intros Hmode Hdec Hid Hcreate Hc Hd Henc h. subst h.
  rewrite (post_dispatched E req s execution_type Hmode cases i s1 v s2 c
             (Ok v') s3); try done.
  by rewrite Henc.
Qed.

Lemma encode_failure_after_dispatch_witness :
  resp (serve (CreateTaskHandler.post
                 (Backend.env Backend.reliable Examples.no_encode)
                 (Examples.create "queue" "{}")) Backend.empty)
    = create_failure "Object is not JSON serializable"
  /\ Backend.queue
       (ext (serve (CreateTaskHandler.post
                      (Backend.env Backend.reliable Examples.no_encode)
                      (Examples.create "queue" "{}")) Backend.empty))
     = [(mkTask "T1" TaskStatus.PENDING, PDict [])].
Proof.
  destruct (encode_failure_after_dispatch
              (Backend.env Backend.reliable Examples.no_encode)
              (Examples.create "queue" "{}") Backend.empty (Some "queue")
              (PDict []) "T1"
              _ PNone _ (PublishTask (mkTask "T1" TaskStatus.PENDING) (PDict []))
              PNone _ "Object is not JSON serializable"
              eq_refl eq_refl eq_refl eq_refl eq_refl eq_refl eq_refl)
    as (H1 & _ & H3).
  split; [exact H1|]. rewrite H3. reflexivity.
Defined.

(** X5: the calls of a creation request, in their order.  Whatever the
    request and whatever the collaborators do, the calls of a creation
    request are one of: none at all; the creation of the record of the
    task allocated for the request, PENDING, and nothing after it, which
    is the case whenever that creation raises; or that creation, having
    returned, followed by exactly one call, the dispatch the mode read
    selects, on the same task and the decoded body.  No call precedes the
    record creation and none follows the dispatch; so the store is never
    read, the cache never read or written, at most one record is created
    and at most one dispatch made, after the creation. *)
Theorem post_call_discipline {S : Type} (E : Collaborators S) (req : request)
    (s : S) :
  let h := serve (CreateTaskHandler.post E req) s in
  let task := mkTask (fst (new_task_id E s)) TaskStatus.PENDING in
  (trace h = []
   \/ (exists r, trace h = [(CreateTask task, r)])
   \/ (exists v c r execution_type cases,
         trace h = [(CreateTask task, Ok v); (c, r)]
         /\ get_argument req "type" (Some "queue") = Done execution_type
         /\ json_decode E (body req) = Ok cases
         /\ dispatch_call execution_type task cases = Some c
         /\ is_dispatch c = true))
  /\ store_reads h = 0
  /\ count_calls is_cache_read h = 0
  /\ cache_writes h = 0
  /\ count_calls is_create h <= 1
  /\ dispatches h <= count_calls is_create h.
Proof.
  intros h task. subst h task.
  unfold store_reads, cache_writes, dispatches, count_calls, calls.
  destruct (get_argument req "type" (Some "queue")) as [execution_type|e]
    eqn:Hmode;
    [|rewrite (post_thrown E req s e Hmode); simpl;
      split_and!; try done; try lia; by left].
  destruct (json_decode E (body req)) as [cases|err] eqn:Hdec;
    [|rewrite (post_body_raises E req s execution_type Hmode err Hdec); simpl;
      split_and!; try done; try lia; by left].
  destruct (new_task_id E s) as [i s1] eqn:Hnew. simpl fst.
  destruct (perform E (CreateTask (mkTask i TaskStatus.PENDING)) s1)
    as [[v|err] s2] eqn:Hcreate;
    [|rewrite (post_create_raises E req s execution_type Hmode cases i s1 err s2
                 Hdec Hnew Hcreate); simpl;
      split_and!; try done; try lia; right; left; by eexists].
  destruct (dispatch_call execution_type (mkTask i TaskStatus.PENDING) cases)
    as [c|] eqn:Hc.
  - destruct (perform E c s2) as [rd s3] eqn:Hd.
    rewrite (post_dispatched E req s execution_type Hmode cases i s1 v s2 c rd
               s3 Hdec Hnew Hcreate Hc Hd). simpl.
    assert (Hdisp : is_dispatch c = true).
    { unfold dispatch_call in Hc.
      repeat case_bool_decide; by simplify_eq. }
    assert (Hkind : is_store_read c = false /\ is_cache_read c = false
                    /\ is_cache_write c = false /\ is_create c = false).
    { by destruct c. }
    destruct Hkind as (-> & -> & -> & ->). rewrite Hdisp. simpl.
    split_and!; try done; try lia.
    right; right. by eexists v, c, rd, execution_type, cases.
  - unfold dispatch_call in Hc.
    assert (Hp : execution_type <> Some "process")
      by (intros ->; by rewrite bool_decide_eq_true_2 in Hc).
    assert (Hq : execution_type <> Some "queue").
    { intros ->. rewrite bool_decide_eq_false_2 in Hc by done.
      by rewrite bool_decide_eq_true_2 in Hc. }
    rewrite (post_unsupported_message E req s execution_type cases i s1 v s2
               Hmode Hp Hq Hdec Hnew Hcreate). simpl.
    split_and!; try done; try lia. right; left; by eexists.
Qed.

(** ** All handlers: the shape of a response *)

Ltac one_chunk :=
  unfold well_formed; simpl; eexists; split; reflexivity.

Section Shape.
Context {S : Type} (E : Collaborators S) (req : request) (s : S).

Lemma post_well_formed (execution_type : option string) :
  get_argument req "type" (Some "queue") = Done execution_type ->
  well_formed (resp (serve (CreateTaskHandler.post E req) s)).
Proof.
  intros Hmode.
  unfold CreateTaskHandler.post. unfold_monad. rewrite Hmode. simpl.
  destruct (json_decode E (body req)); simpl; [|one_chunk].
  destruct (new_task_id E s) as [i s1]; simpl.
  split_call; [|one_chunk].
  repeat case_bool_decide; simpl; try one_chunk;
    (split_call; [|one_chunk]); destruct (json_encode E _); one_chunk.
Qed.

Lemma queue_post_well_formed :
  well_formed (resp (serve (CreateTaskQueueHandler.post E req) s)).
Proof.
  unfold CreateTaskQueueHandler.post. unfold_monad. simpl.
  destruct (json_decode E (body req)); simpl; [|one_chunk].
  destruct (new_task_id E s) as [i s1]; simpl.
  split_call; [|one_chunk]. split_call; [|one_chunk].
  destruct (json_encode E _); one_chunk.
Qed.

Lemma list_well_formed (task_id limit : option string) :
  get_argument req "task_id" None = Done task_id ->
  get_argument req "limit" None = Done limit ->
  well_formed (resp (serve (ListTaskHandler.get E req) s)).
Proof.
  intros Hid Hlimit.
  unfold ListTaskHandler.get. unfold_monad. rewrite Hid, Hlimit. simpl.
  destruct (truthy (of_arg task_id)); simpl.
  - split_call; [|one_chunk]. destruct (dumps E _); one_chunk.
  - destruct (truthy (of_arg limit)); simpl.
    + destruct (int_arg E _); simpl; [|one_chunk].
      split_call; [|one_chunk]. destruct (dumps E _); one_chunk.
    + split_call; [|one_chunk]. destruct (dumps E _); one_chunk.
Qed.

Lemma results_well_formed :
  well_formed (resp (serve (ResultsHandler.get E req) s)).
Proof.
  unfold ResultsHandler.get. unfold_monad.
  destruct (get_argument req "task_id" None) as [task_id|e]; simpl;
    [|one_chunk].
  split_call; [|one_chunk].
  destruct (truthy a) eqn:Ha; simpl; [destruct a; one_chunk|].
  split_call; [|one_chunk].
  destruct (dumps E a0); simpl; [|one_chunk].
  destruct (ResultsHandler.status_of a0) as [st|]; simpl; [|one_chunk].
  destruct (py_eq_str st TaskStatus.PENDING); simpl; [one_chunk|].
  split_call; one_chunk.
Qed.

(** A handler whose unguarded argument does not decode lets the
    [HTTPError] out. *)
Lemma post_lets_out (e : exn) :
  get_argument req "type" (Some "queue") = Thrown e ->
  fst (CreateTaskHandler.post E req (start s)) = Thrown e.
Proof.
  intros Hmode. unfold CreateTaskHandler.post. unfold_monad.
  by rewrite Hmode.
Qed.

Lemma list_lets_out :
  decodes req "task_id" && decodes req "limit" = false ->
  exists e, fst (ListTaskHandler.get E req (start s)) = Thrown e
            /\ http_status e = Some 400%Z.
Proof.
  intros Hdec.
  pose proof (get_argument_spec req "task_id" None) as Hid.
  pose proof (get_argument_spec req "limit" None) as Hlimit.
  unfold ListTaskHandler.get. unfold_monad.
  destruct (get_argument req "task_id" None) as [task_id|e]; simpl.
  - destruct (get_argument req "limit" None) as [limit|e]; simpl.
    + rewrite Hid, Hlimit in Hdec. discriminate.
    + exists e. by destruct Hlimit.
  - exists e. by destruct Hid.
Qed.
End Shape.

(** X6: the answer of every handler of the module, on every request and
    whatever the collaborators do.  When every argument the handler reads
    outside its [try] decodes (the mode of a creation, the task
    identifier and the limit of a listing; the other handlers read none
    there), the handler returns without an uncaught exception and leaves
    a response made of exactly one chunk, with status 500 when that chunk
    is the error envelope and status 200 when it is not.  When one of
    them is not valid UTF-8, the handler lets an [HTTPError] with status
    400 out, the answer is Tornado's 400 page, no collaborator has been
    called and the state is the one before the request. *)
Theorem handlers_answer_well_formed {S : Type} (E : Collaborators S)
    (k : handler_class) (req : request) (s : S) :
  if forallb (decodes req) (unguarded k) then
    fst (handle E k req (start s)) = Done tt
    /\ well_formed (resp (serve (handle E k req) s))
  else
    (exists e, fst (handle E k req (start s)) = Thrown e
               /\ http_status e = Some 400%Z)
    /\ serve (handle E k req) s = mkHstate s [] [] (error_page 400).
Proof.
  destruct k; simpl.
  - pose proof (get_argument_spec req "type" (Some "queue")) as Hspec.
    destruct (get_argument req "type" (Some "queue")) as [a|e] eqn:Hmode.
    + rewrite Hspec. simpl. split.
      * by apply (post_returns E req (start s) a).
      * by apply (post_well_formed E req s a).
    + destruct Hspec as [-> He]. simpl. split.
      * exists e. split; [by apply post_lets_out|done].
      * by apply (post_thrown E req s e).
  - split; [apply queue_post_returns|apply queue_post_well_formed].
  - rewrite andb_true_r.
    destruct (decodes req "task_id" && decodes req "limit") eqn:Hdec.
    + apply andb_true_iff in Hdec as [Hd1 Hd2].
      pose proof (get_argument_spec req "task_id" None) as Hid.
      pose proof (get_argument_spec req "limit" None) as Hlimit.
      destruct (get_argument req "task_id" None) as [task_id|e] eqn:H1;
        [|destruct Hid; congruence].
      destruct (get_argument req "limit" None) as [limit|e] eqn:H2;
        [|destruct Hlimit; congruence].
      split.
      * by apply (list_get_returns E req (start s) task_id limit).
      * by apply (list_well_formed E req s task_id limit).
    + split; [by apply list_lets_out|by apply list_thrown].
  - split; [apply results_get_returns|apply results_well_formed].
  - split; [reflexivity|one_chunk].
Qed.

(** ** Listing *)

(** X7: a listing without task identifier forwards the limit unchecked.
    A non-empty limit that [int] accepts reaches the store as that
    integer, zero and negative numbers included; an absent or empty
    limit reaches it as [None].  That store read is the only call, and
    its outcome, serialized, is the answer. *)
Theorem listing_forwards_limit {S : Type} (E : Collaborators S)
    (req : request) (s : S) (task_id : option string) (lim : pyval) :
  get_argument req "task_id" None = Done task_id ->
  truthy (of_arg task_id) = false ->
  (exists limit, get_argument req "limit" None = Done limit
                 /\ truthy (of_arg limit) = false /\ lim = PNone)
  \/ (exists l n, get_argument req "limit" None = Done (Some l) /\ l <> ""
                  /\ int E l = Ok n /\ lim = PInt n) ->
  let h := serve (ListTaskHandler.get E req) s in
  trace h = [(GetTasks lim, fst (perform E (GetTasks lim) s))]
  /\ ext h = snd (perform E (GetTasks lim) s)
  /\ resp h = match fst (perform E (GetTasks lim) s) with
              | Ok found =>
                  match dumps E found with
                  | Ok tasks => mkResponse 200 [Text tasks]
                  | Raise err => list_failure err
                  end
              | Raise err => list_failure err
              end.
Proof.
  intros Hid Hfalsy Hlim h. subst h.
  unfold ListTaskHandler.get. unfold_monad. rewrite Hid.
  destruct Hlim as [(limit & Hl & Hlf & ->)|(l & n & Hl & Hne & Hint & ->)].
  - rewrite Hl. simpl. rewrite Hfalsy, Hlf. simpl.
    destruct (perform E (GetTasks PNone) s) as [[found|err] s1]; simpl;
      [|done]. by destruct (dumps E found).
  - rewrite Hl. simpl. rewrite Hfalsy. simpl.
    pose proof (truthy_str l Hne) as Ht. simpl in Ht. rewrite Ht. simpl.
    rewrite Hint. simpl.
    destruct (perform E (GetTasks (PInt n)) s) as [[found|err] s1]; simpl;
      [|done]. by destruct (dumps E found).
Qed.

Lemma listing_forwards_limit_witness :
  trace (Examples.list_tasks Backend.reliable [("limit", "-3")] Examples.done_T1)
  = [(GetTasks (PInt (-3)),
      fst (perform (Examples.env Backend.reliable) (GetTasks (PInt (-3)))
             Examples.done_T1))].
Proof.
  apply (listing_forwards_limit (Examples.env Backend.reliable)
           (Examples.listing [("limit", "-3")]) Examples.done_T1 None
           (PInt (-3))).
  - reflexivity.
  - reflexivity.
  - right. exists "-3", (-3)%Z. repeat split; [discriminate].
Defined.

(** X8: listing is read-only.  Whatever the request and the
    collaborators do, a listing makes at most one call, a store read,
    and never creates a record, dispatches, or writes the cache; on the
    specification's store the state after the request is the state
    before it. *)
Theorem listing_is_read_only :
  (forall (S : Type) (E : Collaborators S) (req : request) (s : S),
      let h := serve (ListTaskHandler.get E req) s in
      length (trace h) <= 1
      /\ store_reads h = length (trace h)
      /\ count_calls is_cache_read h = 0)
  /\ (forall (o : Backend.oracle) (L : Library) (req : request) (b : Backend.t),
        ext (serve (ListTaskHandler.get (Backend.env o L) req) b) = b).
Proof.
  split.
  - intros S E req s h. subst h.
    destruct (decodes req "task_id" && decodes req "limit") eqn:Hdec;
      [|rewrite (list_thrown E req s Hdec);
        unfold store_reads, count_calls, calls; simpl; lia].
    pose proof (get_argument_spec req "task_id" None) as Hid.
    pose proof (get_argument_spec req "limit" None) as Hlimit.
    apply andb_true_iff in Hdec as [Hd1 Hd2].
    unfold store_reads, count_calls, calls.
    unfold ListTaskHandler.get. unfold_monad.
    destruct (get_argument req "task_id" None) as [task_id|e];
      [|destruct Hid; congruence].
    destruct (get_argument req "limit" None) as [limit|e];
      [|destruct Hlimit; congruence].
    simpl.
    destruct (truthy (of_arg task_id)); simpl.
    + split_call; [destruct (dumps E _)|]; simpl; lia.
    + destruct (truthy (of_arg limit)); simpl.
      * destruct (int_arg E _); simpl; [|lia].
        split_call; [destruct (dumps E _)|]; simpl; lia.
      * split_call; [destruct (dumps E _)|]; simpl; lia.
  - intros o L req b.
    destruct (decodes req "task_id" && decodes req "limit") eqn:Hdec;
      [|by rewrite (list_thrown (Backend.env o L) req b Hdec)].
    pose proof (get_argument_spec req "task_id" None) as Hid.
    pose proof (get_argument_spec req "limit" None) as Hlimit.
    apply andb_true_iff in Hdec as [Hd1 Hd2].
    assert (Hread : forall c, is_store_read c = true ->
              snd (Backend.perform o c b) = b).
    { intros c Hc. apply backend_read_preserves. by rewrite Hc, orb_true_r. }
    unfold ListTaskHandler.get. unfold_monad.
    destruct (get_argument req "task_id" None) as [task_id|e];
      [|destruct Hid; congruence].
    destruct (get_argument req "limit" None) as [limit|e];
      [|destruct Hlimit; congruence].
    simpl.
    destruct (truthy (of_arg task_id)); simpl.
    + pose proof (Hread (GetTask (of_arg task_id)) eq_refl) as Hb.
      destruct (Backend.perform o _ b) as [[found|err] b']; simpl in *;
        subst; [by destruct (lib_dumps L found)|done].
    + destruct (truthy (of_arg limit)); simpl.
      * destruct (int_arg (Backend.env o L) _) as [n|]; simpl; [|done].
        pose proof (Hread (GetTasks (PInt n)) eq_refl) as Hb.
        destruct (Backend.perform o _ b) as [[found|err] b']; simpl in *;
          subst; [by destruct (lib_dumps L found)|done].
      * pose proof (Hread (GetTasks PNone) eq_refl) as Hb.
        destruct (Backend.perform o _ b) as [[found|err] b']; simpl in *;
          subst; [by destruct (lib_dumps L found)|done].
Qed.

(** ** Result queries *)

(** X9: a result query touches one cache entry at most.  On the
    specification's store, whatever fails, a result query leaves the
    task records, the queue and the identifier allocation as they were,
    and leaves every cache entry other than the one of the queried
    identifier as it was. *)
Theorem results_query_frame (o : Backend.oracle) (L : Library)
    (req : request) (b : Backend.t) :
  let h := serve (ResultsHandler.get (Backend.env o L) req) b in
  Backend.tasks (ext h) = Backend.tasks b
  /\ Backend.queue (ext h) = Backend.queue b
  /\ Backend.allocated (ext h) = Backend.allocated b
  /\ forall k, get_argument req "task_id" None <> Done (Some k) ->
               Backend.cache (ext h) !! k = Backend.cache b !! k.
Proof.
  intros h. subst h.
  destruct (get_argument req "task_id" None) as [task_id|e] eqn:Hid;
    [|by rewrite (get_thrown (Backend.env o L) req b e Hid)].
  set (id := of_arg task_id).
  assert (Hkey : forall k, Done task_id <> Done (Some k) -> id <> PStr k).
  { subst id. intros k Hk. destruct task_id; simpl; congruence. }
  pose proof (backend_read_preserves o b (RedisGet id) eq_refl) as H1.
  pose proof (backend_read_preserves o b (GetResults id) eq_refl) as H2.
  unfold ResultsHandler.get. unfold_monad. rewrite Hid. simpl. fold id.
  destruct (Backend.perform o (RedisGet id) b) as [[c|e] b1]; simpl in *;
    subst b1; [|done].
  destruct (truthy c); simpl; [by destruct c|].
  destruct (Backend.perform o (GetResults id) b) as [[db|e] b2]; simpl in *;
    subst b2; [|done].
  destruct (lib_dumps L db) as [js|]; simpl; [|done].
  destruct (ResultsHandler.status_of db) as [st|]; simpl; [|done].
  destruct (py_eq_str st TaskStatus.PENDING); simpl; [done|].
  pose proof (backend_set_frame o b id (PStr js)) as (Ht & Hq & Ha & Hc).
  destruct (Backend.perform o (RedisSet id (PStr js)) b) as [[v|e] b3];
    simpl in *; split_and!; try done; intros k Hk; apply Hc, Hkey, Hk.
Qed.

Lemma results_query_frame_witness :
  Backend.cache (ext (Examples.query Backend.reliable "T1" Examples.done_T1))
    !! "T2"
  = Backend.cache Examples.done_T1 !! "T2".
Proof.
  apply (results_query_frame Backend.reliable Plain.library
           (Examples.results_of "T1") Examples.done_T1).
  discriminate.
Defined.

(** X10: a record the handler cannot inspect.  On a cache miss, when the
    value read from the store serializes but is not a dict, or is a dict
    whose "task" is not a dict, the status lookup raises after the
    serialization: the caller gets the 500 envelope naming the type that
    has no attribute 'get', and nothing is written to the cache. *)
Theorem uninspectable_record_is_an_error {S : Type} (E : Collaborators S)
    (req : request) (s : S) (task_id : option string) (c : pyval) (s1 : S)
    (db : pyval) (s2 : S) (js : string) (x : pyval) :
  get_argument req "task_id" None = Done task_id ->
  let id := of_arg task_id in
  perform E (RedisGet id) s = (Ok c, s1) ->
  truthy c = false ->
  perform E (GetResults id) s1 = (Ok db, s2) ->
  dumps E db = Ok js ->
  (x = db \/ exists d, db = PDict d /\ assoc "task" d = Some x) ->
  (forall d, x <> PDict d) ->
  let h := serve (ResultsHandler.get E req) s in
  resp h = results_failure ("'" ++ type_name x ++ "' object has no attribute 'get'")
  /\ cache_writes h = 0
  /\ ext h = s2.
Proof.
  intros Hid id Hget Hc Hres Hjs Hx Hnd h. subst h.
  assert (Hst : ResultsHandler.status_of db =
                Raise ("'" ++ type_name x ++ "' object has no attribute 'get'")).
  { destruct Hx as [->|(d & -> & Hd)].
    - destruct db; try done. by destruct (Hnd d).
    - unfold ResultsHandler.status_of. simpl. rewrite Hd. simpl.
      destruct x; try done. by destruct (Hnd d0). }
  unfold cache_writes, count_calls, calls.
  unfold ResultsHandler.get. unfold_monad. rewrite Hid. simpl. fold id.
  rewrite Hget. simpl. rewrite Hc. simpl. rewrite Hres. simpl.
  rewrite Hjs, Hst. done.
Qed.

Lemma uninspectable_record_is_an_error_witness :
  resp (Examples.query Examples.none_missing "T9" Backend.empty)
    = results_failure "'NoneType' object has no attribute 'get'"
  /\ cache_writes (Examples.query Examples.none_missing "T9" Backend.empty) = 0
  /\ ext (Examples.query Examples.none_missing "T9" Backend.empty)
     = Backend.empty.
Proof.
  apply (uninspectable_record_is_an_error (Examples.env Examples.none_missing)
           (Examples.results_of "T9") Backend.empty (Some "T9") PNone
           Backend.empty PNone Backend.empty "null" PNone);
    try reflexivity.
  - by left.
  - discriminate.
Defined.

Ltac all_calls := repeat (constructor; [by eauto 6|]); by constructor.

(** X11: the identifier is not validated.  A result query without a
    task_id argument starts by reading the cache under the key [None],
    and every call it makes is made under that key. *)
Theorem missing_task_id_is_passed_as_none {S : Type} (E : Collaborators S)
    (req : request) (s : S) :
  arguments req !! "task_id" = None ->
  let h := serve (ResultsHandler.get E req) s in
  (exists r rest, trace h = (RedisGet PNone, r) :: rest)
  /\ Forall (fun c => c = RedisGet PNone \/ c = GetResults PNone
                      \/ exists v, c = RedisSet PNone v) (calls h).
Proof.
  intros Harg h. subst h. unfold calls.
  unfold ResultsHandler.get. unfold_monad.
  rewrite (get_argument_absent req "task_id" None Harg). simpl.
  split_call; [|split; [by eexists _, _|all_calls]].
  destruct (truthy a); simpl.
  { destruct a; (split; [by eexists _, _|all_calls]). }
  split_call; [|split; [by eexists _, _|all_calls]].
  destruct (dumps E a0) as [js|]; simpl; [|split; [by eexists _, _|all_calls]].
  destruct (ResultsHandler.status_of a0) as [st|]; simpl;
    [|split; [by eexists _, _|all_calls]].
  destruct (py_eq_str st TaskStatus.PENDING); simpl;
    [split; [by eexists _, _|all_calls]|].
  split_call; (split; [by eexists _, _|all_calls]).
Qed.

Lemma missing_task_id_is_passed_as_none_witness :
  exists r rest,
    trace (serve (ResultsHandler.get (Examples.env Backend.reliable)
                    (Examples.bare "")) Examples.done_T1)
    = (RedisGet PNone, r) :: rest.
Proof.
  apply (missing_task_id_is_passed_as_none (Examples.env Backend.reliable)
           (Examples.bare "") Examples.done_T1).
  reflexivity.
Defined.

(** X12: a pending task is never cached, however often it is queried.
    On the specification's store, for a record with status PENDING and no
    cache entry, each of any number of successive result queries reads
    the store, answers 200 with the serialized current view, and writes
    nothing to the cache. *)
Theorem pending_is_read_every_time (o : Backend.oracle) (L : Library)
    (b : Backend.t) (req : request) (i : string) (row : Backend.row)
    (js : string) (n : nat) :
  get_argument req "task_id" None = Done (Some i) ->
  Backend.tasks b !! i = Some row ->
  Backend.row_status row = TaskStatus.PENDING_ ->
  Backend.cache b !! i = None ->
  Backend.fault o (RedisGet (PStr i)) = None ->
  Backend.fault o (GetResults (PStr i)) = None ->
  lib_dumps L (Backend.results_view i row) = Ok js ->
  Forall (fun h => resp h = mkResponse 200 [Text js]
                   /\ store_reads h = 1 /\ cache_writes h = 0
                   /\ Backend.cache (ext h) !! i = None)
    (serve_all (replicate n (ResultsHandler.get (Backend.env o L) req)) b).
Proof.
  intros Hid Hrow Hpend Hcache Hf1 Hf2 Hjs.
  assert (Hrun : serve (ResultsHandler.get (Backend.env o L) req) b =
    mkHstate b
      [(RedisGet (PStr i), Ok PNone);
       (GetResults (PStr i), Ok (Backend.results_view i row))]
      ["Status of the task '" ++ i ++ "' is '" ++ TaskStatus.PENDING
       ++ "', skip Redis cache saving"]
      (mkResponse 200 [Text js])).
  { rewrite (get_pending (Backend.env o L) req b (Some i) Hid PNone b
               (Backend.results_view i row) b js
               (PStr (TaskStatus.value (Backend.row_status row)))).
    - done.
    - simpl of_arg. rewrite perform_redis_get by done.
      by rewrite Hcache.
    - done.
    - simpl of_arg. by apply perform_get_results_found.
    - done.
    - apply status_of_view.
    - by rewrite Hpend. }
  induction n as [|n IH]; simpl; constructor.
  - by rewrite Hrun.
  - rewrite Hrun. simpl ext. apply IH.
Qed.

Lemma pending_is_read_every_time_witness :
  Forall (fun h => resp h
                   = mkResponse 200
                       [Text (Plain.dumps
                                (Backend.results_view "T1"
                                   (Backend.mkRow TaskStatus.PENDING_ (PList []))))]
                   /\ store_reads h = 1 /\ cache_writes h = 0
                   /\ Backend.cache (ext h) !! "T1" = None)
    (serve_all
       (replicate 3 (ResultsHandler.get (Examples.env Backend.reliable)
                       (Examples.results_of "T1")))
       Examples.pending_T1).
Proof.
  apply (pending_is_read_every_time Backend.reliable Plain.library
           Examples.pending_T1 (Examples.results_of "T1") "T1"
           (Backend.mkRow TaskStatus.PENDING_ (PList [])) _ 3);
    reflexivity.
Defined.

Lemma status_pending_inv (db st : pyval) :
  ResultsHandler.status_of db = Ok st ->
  py_eq_str st TaskStatus.PENDING = true ->
  exists d d', db = PDict d /\ assoc "task" d = Some (PDict d')
               /\ assoc "status" d' = Some (PStr TaskStatus.PENDING).
Proof.
  unfold ResultsHandler.status_of.
  destruct db as [| | | | |d]; simpl; try done.
  destruct (assoc "task" d) as [t|] eqn:Ht; simpl.
  - destruct t as [| | | | |d']; simpl; try done.
    destruct (assoc "status" d') as [x|] eqn:Hx; simpl.
    + intros [= ->] Hp. destruct st; try done. simpl in Hp.
      apply String.eqb_eq in Hp. subst. by exists d, d'.
    + intros [= <-]. done.
  - intros [= <-]. done.
Qed.

(** X13: when the cache write is skipped.  On a cache miss with a record
    read and serialized, the query answers with the serialized record
    without writing the cache exactly when the record is a dict whose
    "task" entry is a dict whose "status" entry is the PENDING string; a
    missing task or status, or a status of another type, does not skip
    the write. *)
Theorem caching_skipped_iff_pending {S : Type} (E : Collaborators S)
    (req : request) (s : S) (task_id : option string) (c : pyval) (s1 : S)
    (db : pyval) (s2 : S) (js : string) :
  get_argument req "task_id" None = Done task_id ->
  let id := of_arg task_id in
  perform E (RedisGet id) s = (Ok c, s1) ->
  truthy c = false ->
  perform E (GetResults id) s1 = (Ok db, s2) ->
  dumps E db = Ok js ->
  let h := serve (ResultsHandler.get E req) s in
  (resp h = mkResponse 200 [Text js] /\ cache_writes h = 0)
  <-> exists d d', db = PDict d /\ assoc "task" d = Some (PDict d')
                   /\ assoc "status" d' = Some (PStr TaskStatus.PENDING).
Proof.
  intros Hid id Hget Hc Hres Hjs h. subst h. split.
  - destruct (ResultsHandler.status_of db) as [st|err] eqn:Hst.
    + destruct (py_eq_str st TaskStatus.PENDING) eqn:Hp.
      * intros _. by apply (status_pending_inv db st).
      * destruct (perform E (RedisSet id (PStr js)) s2) as [r s3] eqn:Hset.
        rewrite (get_finished E req s task_id Hid c s1 db s2 js st r s3);
          try done.
        unfold cache_writes, count_calls, calls. simpl. intros [_ ?]. lia.
    + unfold ResultsHandler.get. unfold_monad. rewrite Hid. simpl. fold id.
      rewrite Hget. simpl. rewrite Hc. simpl. rewrite Hres. simpl.
      rewrite Hjs, Hst. simpl. intros [Hr _].
      apply (f_equal status_code) in Hr. simpl in Hr. lia.
  - intros (d & d' & -> & Ht & Hs).
    rewrite (get_pending E req s task_id Hid c s1 (PDict d) s2 js
               (PStr TaskStatus.PENDING)); try done.
    unfold ResultsHandler.status_of. simpl. rewrite Ht. simpl.
    by rewrite Hs.
Qed.

Lemma caching_skipped_iff_pending_witness :
  (resp (Examples.query Backend.reliable "T1" Examples.pending_T1)
     = mkResponse 200
         [Text (Plain.dumps
                  (Backend.results_view "T1"
                     (Backend.mkRow TaskStatus.PENDING_ (PList []))))]
   /\ cache_writes (Examples.query Backend.reliable "T1" Examples.pending_T1) = 0)
  <-> exists d d',
        Backend.results_view "T1" (Backend.mkRow TaskStatus.PENDING_ (PList []))
          = PDict d
        /\ assoc "task" d = Some (PDict d')
        /\ assoc "status" d' = Some (PStr TaskStatus.PENDING).
Proof.
  apply (caching_skipped_iff_pending (Examples.env Backend.reliable)
           (Examples.results_of "T1") Examples.pending_T1 (Some "T1") PNone
           Examples.pending_T1
           (Backend.results_view "T1"
              (Backend.mkRow TaskStatus.PENDING_ (PList [])))
           Examples.pending_T1); reflexivity.
Defined.

(** ** Creation followed by a query *)

(** X14: a task created in 'queue' mode reads as pending.  On the
    specification's store, after a creation in 'queue' mode whose record
    creation and publish succeed, the payload is at the end of the queue,
    and a result query for the new identifier served next answers 200
    with the serialized PENDING view, writes nothing to the cache and
    leaves the state as the creation left it. *)
Theorem queued_task_reads_pending (o o' : Backend.oracle) (L : Library)
    (b : Backend.t) (req req' : request) (cases : pyval) (js : string) :
  let i := fst (Backend.new_task_id b) in
  let task := mkTask i TaskStatus.PENDING in
  let pending := Backend.mkRow TaskStatus.PENDING_ (PList []) in
  lib_json_decode L (body req) = Ok cases ->
  get_argument req "type" (Some "queue") = Done (Some "queue") ->
  Backend.fault o (CreateTask task) = None ->
  Backend.tasks b !! i = None ->
  Backend.fault o (PublishTask task cases) = None ->
  Backend.cache b !! i = None ->
  get_argument req' "task_id" None = Done (Some i) ->
  Backend.fault o' (RedisGet (PStr i)) = None ->
  Backend.fault o' (GetResults (PStr i)) = None ->
  lib_dumps L (Backend.results_view i pending) = Ok js ->
  let h := serve (CreateTaskHandler.post (Backend.env o L) req) b in
  let q := serve (ResultsHandler.get (Backend.env o' L) req') (ext h) in
  Backend.queue (ext h) = (Backend.queue b ++ [(task, cases)])%list
  /\ resp q = mkResponse 200 [Text js]
  /\ cache_writes q = 0
  /\ ext q = ext h.
Proof.
  intros i task pending Hdec Hmode Hf1 Hfresh Hf2 Hcache Hid Hg1 Hg2 Hjs h q.
  set (b1 := snd (Backend.new_task_id b)).
  set (b2 := Backend.set_tasks b1 (<[i := pending]> (Backend.tasks b))).
  set (b3 := Backend.set_queue b2 (Backend.queue b ++ [(task, cases)])%list).
  assert (Hext : ext h = b3).
  { subst h.
    rewrite (post_dispatched (Backend.env o L) req b (Some "queue") Hmode
               cases i b1 PNone b2
               (PublishTask task cases) (Ok PNone) b3); try done.
    - simpl. unfold Backend.perform. fold task. rewrite Hf1. simpl.
      fold i. by rewrite Hfresh.
    - simpl. unfold Backend.perform. by rewrite Hf2. }
  subst q. rewrite Hext. split; [done|].
  rewrite (get_pending (Backend.env o' L) req' b3 (Some i) Hid PNone b3
             (Backend.results_view i pending) b3 js
             (PStr TaskStatus.PENDING)); try done.
  - simpl of_arg. rewrite perform_redis_get by done.
    simpl. by rewrite Hcache.
  - simpl of_arg. apply perform_get_results_found; [done|].
    simpl. apply lookup_insert_eq.
Qed.

Lemma queued_task_reads_pending_witness :
  Backend.queue (ext (Examples.submit Backend.reliable "queue" "{}"
                        Backend.empty))
    = [(mkTask "T1" TaskStatus.PENDING, PDict [])]
  /\ resp (Examples.query Backend.reliable "T1"
             (ext (Examples.submit Backend.reliable "queue" "{}" Backend.empty)))
     = mkResponse 200
         [Text (Plain.dumps
                  (Backend.results_view "T1"
                     (Backend.mkRow TaskStatus.PENDING_ (PList []))))].
Proof.
  destruct (queued_task_reads_pending Backend.reliable Backend.reliable
              Plain.library Backend.empty (Examples.create "queue" "{}")
              (Examples.results_of "T1") (PDict []) _
              eq_refl eq_refl eq_refl eq_refl eq_refl eq_refl eq_refl eq_refl
              eq_refl eq_refl) as (H1 & H2 & _).
  split; [exact H1|exact H2].
Defined.

(** X15: a listing with a non-empty task identifier.  Both arguments are
    read before the [try], the limit also when a task identifier is
    given.  When the limit decodes, the listing asks the store for that
    one task: the single call is the task read for the identifier, [int]
    is not applied to the limit, and the outcome of the read, serialized,
    is the answer (the 500 listing error when the read or the
    serialization raises).  When the limit is not valid UTF-8, the store
    is not asked: the answer is Tornado's 400 page and the state is the
    one before the request. *)
Theorem listing_by_identifier {S : Type} (E : Collaborators S)
    (req : request) (s : S) (t : string) :
  get_argument req "task_id" None = Done (Some t) ->
  t <> "" ->
  let h := serve (ListTaskHandler.get E req) s in
  if decodes req "limit" then
    trace h = [(GetTask (PStr t), fst (perform E (GetTask (PStr t)) s))]
    /\ ext h = snd (perform E (GetTask (PStr t)) s)
    /\ resp h = match fst (perform E (GetTask (PStr t)) s) with
                | Ok found =>
                    match dumps E found with
                    | Ok tasks => mkResponse 200 [Text tasks]
                    | Raise err => list_failure err
                    end
                | Raise err => list_failure err
                end
  else
    resp h = error_page 400 /\ trace h = [] /\ ext h = s.
Proof.
  intros Hid Hne h. subst h.
  pose proof (get_argument_spec req "limit" None) as Hlimit.
  destruct (decodes req "limit") eqn:Hdec.
  - destruct (get_argument req "limit" None) as [limit|e] eqn:Hl;
      [|destruct Hlimit; congruence].
    unfold ListTaskHandler.get. unfold_monad. rewrite Hid, Hl. simpl.
    pose proof (truthy_str t Hne) as Ht. simpl in Ht. rewrite Ht. simpl.
    destruct (perform E (GetTask (PStr t)) s) as [[found|err] s1]; simpl;
      [|done]. by destruct (dumps E found).
  - rewrite (list_thrown E req s); [done|].
    rewrite Hdec. apply andb_false_r.
Qed.

Lemma listing_by_identifier_witness :
  resp (Examples.list_tasks Backend.reliable
          [("task_id", "T9"); ("limit", "abc")] Examples.done_T1)
  = list_failure "TaskNotFoundError: T9"
  /\ resp (Examples.list_tasks Backend.reliable
             [("task_id", "T9"); ("limit", Examples.invalid)] Examples.done_T1)
     = error_page 400.
Proof.
  split.
  - exact (proj2 (proj2 (listing_by_identifier (Examples.env Backend.reliable)
                           (Examples.listing [("task_id", "T9"); ("limit", "abc")])
                           Examples.done_T1 "T9" eq_refl
                           ltac:(discriminate)))).
  - exact (proj1 (listing_by_identifier (Examples.env Backend.reliable)
                    (Examples.listing
                       [("task_id", "T9"); ("limit", Examples.invalid)])
                    Examples.done_T1 "T9" eq_refl ltac:(discriminate))).
Defined.

(** ** Arguments that do not decode, or decode to the same value *)

(** X16: a result query reads its argument inside the [try].  When the
    task_id argument is not valid UTF-8, the [HTTPError] of the read is
    caught like any other exception: unlike a creation or a listing, the
    query is answered by the 500 error envelope, whose message is that of
    the [HTTPError] with status 400; neither the cache nor the store has
    been asked, nothing is logged and the state is the one before the
    request. *)
Theorem undecodable_task_id_is_a_generic_failure {S : Type}
    (E : Collaborators S) (req : request) (s : S) :
  decodes req "task_id" = false ->
  let h := serve (ResultsHandler.get E req) s in
  (exists e, get_argument req "task_id" None = Thrown e
             /\ http_status e = Some 400%Z
             /\ resp h = results_failure (message e))
  /\ status_code (resp h) = 500%Z
  /\ trace h = [] /\ logs h = [] /\ ext h = s.
Proof.
  intros Hdec h. subst h.
  pose proof (get_argument_spec req "task_id" None) as Hspec.
  destruct (get_argument req "task_id" None) as [a|e] eqn:Hid;
    [congruence|].
  rewrite (get_thrown E req s e Hid). simpl.
  split_and!; try done. exists e. by destruct Hspec.
Qed.

Lemma undecodable_task_id_is_a_generic_failure_witness :
  resp (Examples.query Backend.reliable Examples.invalid Examples.done_T1)
    = results_failure
        ("HTTP 400: Bad Request (Invalid unicode in task_id: "
         ++ bytes_repr Examples.invalid ++ ")")
  /\ trace (Examples.query Backend.reliable Examples.invalid Examples.done_T1)
     = [].
Proof.
  destruct (undecodable_task_id_is_a_generic_failure
              (Examples.env Backend.reliable)
              (Examples.results_of Examples.invalid) Examples.done_T1 eq_refl)
    as ((e & He & _ & Hr) & _ & Ht & _).
  split; [|exact Ht].
  unfold Examples.query. rewrite Hr.
  vm_compute in He. injection He as <-. reflexivity.
Defined.


